(** * notification-bot: the HTTP-to-WhatsApp gateway of [server.js]

  A shallow embedding of the logic that [server.js] owns: the phone-number
  normalizer [formatPhoneNumber], the connection state ([isReady],
  [qrCodeData]) driven by the client's lifecycle events, and the handlers of
  the endpoints.  [POST /send-message] is modelled twice: [post_send_message]
  is the handler on a parsed body with a client whose calls settle, and
  [serve_send_message] is the whole path of a request, from the body parsers
  to the answer, with a client whose calls may stay pending.

  Strings are Stdlib strings.  The only string operations of the source
  that look at characters are the regular expression [/\D/g] and
  [startsWith]; after the replacement only ASCII digits remain, so the
  length taken by the source is the same whether the input is read as
  UTF-16 code units or as bytes. *)

From Stdlib Require Import String Ascii List ZArith Lia Bool Arith.
Import ListNotations.
Open Scope string_scope.

(** ** JavaScript values and primitives used by the source *)

Module Js.

(** The values a parsed request body can hold in a field, as far as the
    handlers distinguish them.  [JObject] stands for any array or object
    (always truthy, and without a callable [replace]); a number is
    truthy unless it is zero. *)
Inductive value : Type :=
| JUndefined
| JNull
| JBool (b : bool)
| JNumber (n : Z)
| JString (s : string)
| JObject.

(** [ToBoolean], as applied by [if (v)] and [!v]. *)
Definition truthy (v : value) : bool :=
  match v with
  | JUndefined | JNull => false
  | JBool b => b
  | JNumber n => negb (n =? 0)%Z
  | JString s => negb (s =? "")
  | JObject => true
  end.

(** Thrown values: [new Error(msg)] and the engine's [TypeError]. *)
Inductive exn : Type :=
| Error (msg : string)
| TypeError (msg : string).

(** [error.message] *)
Definition exn_message (e : exn) : string :=
  match e with Error m | TypeError m => m end.

(** How the evaluation of a function body ends. *)
Inductive completion (A : Type) : Type :=
| Return (a : A)
| Throw (e : exn).
Arguments Return {A} a.
Arguments Throw {A} e.

(** The character class [\d] is [[0-9]]; [\D] is its complement. *)
Definition class_d (c : ascii) : bool :=
  (48 <=? nat_of_ascii c)%nat && (nat_of_ascii c <=? 57)%nat.
Definition class_D (c : ascii) : bool := negb (class_d c).

(** [s.replace(/C/g, by)] for a one-character class [C]: every match is
    replaced, scanning from the left. *)
Fixpoint replace_class_g (C : ascii -> bool) (by_ : string) (s : string) : string :=
  match s with
  | EmptyString => EmptyString
  | String c rest =>
      if C c then by_ ++ replace_class_g C by_ rest
      else String c (replace_class_g C by_ rest)
  end.

(** [s.startsWith(p)] *)
Definition startsWith (s p : string) : bool := String.prefix p s.

(** [s.substring(n)]: from index [n] to the end. *)
Definition substring_from (n : nat) (s : string) : string :=
  String.substring n (String.length s - n) s.

End Js.

Import Js.

(** ** The phone-number normalizer *)

Module Normalizer.

Definition msg_country_code : string :=
  "Invalid Rwandan phone number. Should be 12 digits with country code (250)".
Definition msg_local : string :=
  "Invalid Rwandan phone number. Local format should be 10 digits starting with 0".
Definition msg_format : string :=
  "Invalid Rwandan phone number format. Use: 250788123456, 0788123456, or 788123456".

(** The body of [formatPhoneNumber] once [phoneNumber] is a string. *)
Definition formatPhoneNumber_string (phoneNumber : string) : completion string :=
  let cleaned := replace_class_g class_D "" phoneNumber in
  if startsWith cleaned "250" then
    if negb (String.length cleaned =? 12)%nat then Throw (Error msg_country_code)
    else Return (cleaned ++ "@c.us")
  else if startsWith cleaned "0" then
    if negb (String.length cleaned =? 10)%nat then Throw (Error msg_local)
    else
      let cleaned := "250" ++ substring_from 1 cleaned in
      Return (cleaned ++ "@c.us")
  else if (String.length cleaned =? 9)%nat then
    let cleaned := "250" ++ cleaned in
    Return (cleaned ++ "@c.us")
  else Throw (Error msg_format).

(** [formatPhoneNumber(phoneNumber)] on any value: the method call
    [phoneNumber.replace] raises a [TypeError] when the receiver is
    [undefined] or [null], and when it is not a string (no callable
    [replace]). *)
Definition formatPhoneNumber (phoneNumber : value) : completion string :=
  match phoneNumber with
  | JString s => formatPhoneNumber_string s
  | JUndefined =>
      Throw (TypeError "Cannot read properties of undefined (reading 'replace')")
  | JNull =>
      Throw (TypeError "Cannot read properties of null (reading 'replace')")
  | JBool _ | JNumber _ | JObject =>
      Throw (TypeError "phoneNumber.replace is not a function")
  end.

(** *** The normalizer as the specification words it *)

(** Step 1: keep the decimal digits, drop everything else. *)
Definition is_decimal_digit (c : ascii) : bool :=
  match c with
  | "0" | "1" | "2" | "3" | "4" | "5" | "6" | "7" | "8" | "9" => true
  | _ => false
  end%char.

Definition digits_of (s : string) : string :=
  string_of_list_ascii (filter is_decimal_digit (list_ascii_of_string s)).

Definition all_digits (s : string) : bool :=
  forallb is_decimal_digit (list_ascii_of_string s).

(** The typed failure of the specification. *)
Definition InvalidFormat (m : string) : exn := Error m.

(** Step 2: classification of the digits by prefix and length. *)
Definition classify_digits (d : string) : completion string :=
  match d with
  | String "2" (String "5" (String "0" _)) =>
      if (String.length d =? 12)%nat then Return (d ++ "@c.us")
      else Throw (InvalidFormat msg_country_code)
  | String "0" rest =>
      if (String.length d =? 10)%nat then Return ("250" ++ rest ++ "@c.us")
      else Throw (InvalidFormat msg_local)
  | _ =>
      if (String.length d =? 9)%nat then Return ("250" ++ d ++ "@c.us")
      else Throw (InvalidFormat msg_format)
  end.

Definition normalize_spec (input : string) : completion string :=
  classify_digits (digits_of input).

(** The harness of the idempotence property: remove a trailing [suffix]. *)
Fixpoint strip_suffix (suffix s : string) : string :=
  if (s =? suffix) then EmptyString
  else match s with
       | EmptyString => EmptyString
       | String c rest => String c (strip_suffix suffix rest)
       end.

End Normalizer.

Import Normalizer.

(** ** The connection state and the client's lifecycle events *)

Module Tracker.

(** [let isReady = false; let qrCodeData = null;] *)
Record State : Type := { isReady : bool; qrCodeData : option string }.

Definition initial : State := {| isReady := false; qrCodeData := None |}.

(** The events [server.js] subscribes to with [client.on]. *)
Inductive event : Type :=
| Qr (qr : string)
| LoadingScreen (percent : Z) (message : string)
| Ready
| Authenticated
| AuthFailure (msg : string)
| ChangeState (state : string)
| Disconnected (reason : string).

(** What a timer does when it fires. *)
Inductive callback : Type :=
| ClientInitialize.

(** What a handler does besides assigning the two variables. *)
Inductive effect : Type :=
| ConsoleLog (args : list value)
| ConsoleError (args : list value)
| QrcodeGenerate (qr : string)
| SetTimeout (cb : callback) (ms : Z).

(** The body of the handler registered for each event: the state it leaves
    and the effects it performs, in order. *)
Definition on (e : event) (st : State) : State * list effect :=
  match e with
  | Qr qr =>
      ({| isReady := isReady st; qrCodeData := Some qr |},
       [ConsoleLog [JString "QR Code received, please scan with your WhatsApp mobile app:"];
        QrcodeGenerate qr])
  | LoadingScreen percent message =>
      (st, [ConsoleLog [JString "Loading:"; JNumber percent; JString "%"; JString message]])
  | Ready =>
      ({| isReady := true; qrCodeData := None |},
       [ConsoleLog [JString "WhatsApp Client is ready!"]])
  | Authenticated =>
      (st, [ConsoleLog [JString "WhatsApp Client authenticated successfully"]])
  | AuthFailure msg =>
      ({| isReady := false; qrCodeData := qrCodeData st |},
       [ConsoleError [JString "Authentication failed:"; JString msg]])
  | ChangeState state =>
      (st, [ConsoleLog [JString "Connection state changed:"; JString state]])
  | Disconnected reason =>
      ({| isReady := false; qrCodeData := qrCodeData st |},
       [ConsoleLog [JString "WhatsApp Client disconnected:"; JString reason];
        ConsoleLog [JString "Attempting to reconnect in 5 seconds..."];
        SetTimeout ClientInitialize 5000])
  end.

(** The timers among the effects of a handler. *)
Definition timers (effs : list effect) : list (callback * Z) :=
  flat_map (fun eff => match eff with SetTimeout cb ms => [(cb, ms)] | _ => [] end) effs.

(** The state after a sequence of events, delivered one at a time. *)
Definition state_after (evs : list event) (st : State) : State :=
  fold_left (fun s e => fst (on e s)) evs st.

(** The states reached from [initial] when every delivery satisfies
    [allowed]. *)
Inductive reachable (allowed : State -> event -> Prop) : State -> Prop :=
| reachable_initial : reachable allowed initial
| reachable_on (st : State) (e : event) :
    reachable allowed st -> allowed st e -> reachable allowed (fst (on e st)).

Definition any_delivery : State -> event -> Prop := fun _ _ => True.

(** QR payloads are only issued while the tracker is not ready. *)
Definition qr_only_while_not_ready : State -> event -> Prop :=
  fun st e => forall qr, e = Qr qr -> isReady st = false.

End Tracker.

Import Tracker.

(** ** The HTTP handlers *)

Module Gateway.

(** What [res.status(code).json(obj)] sends; [obj] as its fields in order. *)
Record Response : Type := { status : Z; body : list (string * value) }.

(** [res.json(obj)]: the status stays at its default, 200. *)
Definition json (obj : list (string * value)) : Response :=
  {| status := 200; body := obj |}.

Definition status_json (code : Z) (obj : list (string * value)) : Response :=
  {| status := code; body := obj |}.

(** [obj[key]] *)
Fixpoint field (key : string) (obj : list (string * value)) : value :=
  match obj with
  | [] => JUndefined
  | (k, v) :: rest => if (k =? key) then v else field key rest
  end.

(** The value of the variable [qrCodeData]. *)
Definition qr_value (q : option string) : value :=
  match q with
  | None => JNull
  | Some qr => JString qr
  end.

(** [app.get("/qr", ...)] *)
Definition get_qr (st : State) : Response :=
  if truthy (qr_value (qrCodeData st)) then
    json [("qrCode", qr_value (qrCodeData st));
          ("message", JString "Please scan this QR code with your WhatsApp mobile app")]
  else if isReady st then
    json [("message", JString "Bot is already authenticated and ready")]
  else
    json [("message", JString "QR code not available yet. Please wait...")].

(** [req.body] of [POST /send-message], destructured into its two fields;
    an absent field reads as [undefined].  This is a body that
    [express.json()] or [express.urlencoded()] parsed into an object; a
    [req.body] left [undefined] and a body the parsers refuse are part of
    [Pipeline] below. *)
Record SendRequest : Type := { phoneNumber : value; message : value }.

(** The two operations of the messaging client the handler awaits, for a
    client whose calls settle with a value or an error object ([Pipeline]
    below has the calls that stay pending).  The result of [sendMessage] is
    the [id.id] the handler reads from it. *)
Record Client : Type := {
  isRegisteredUser : string -> completion bool;
  sendMessage : string -> value -> completion string
}.

(** The calls a request handler makes, in order. *)
Inductive call : Type :=
| CallFormatPhoneNumber (arg : value)
| CallIsRegisteredUser (address : string)
| CallSendMessage (address : string) (text : value).

(** Handler code: the calls made so far and how the code ended. *)
Definition M (A : Type) : Type := (list call * completion A)%type.

Definition ret {A : Type} (a : A) : M A := ([], Return a).

Definition bind {A B : Type} (m : M A) (k : A -> M B) : M B :=
  match m with
  | (calls, Return a) => let (calls', r) := k a in ((calls ++ calls')%list, r)
  | (calls, Throw e) => (calls, Throw e)
  end.

(** A call, recorded, with its completion. *)
Definition invoke {A : Type} (c : call) (r : completion A) : M A := ([c], r).

(** [try { m } catch (error) { handler }] *)
Definition try_catch {A : Type} (m : M A) (handler : exn -> M A) : M A :=
  match m with
  | (calls, Return a) => (calls, Return a)
  | (calls, Throw e) => let (calls', r) := handler e in ((calls ++ calls')%list, r)
  end.

Notation "x <- m ;; k" := (bind m (fun x => k))
  (at level 61, m at next level, right associativity).

Definition err_not_ready : string :=
  "WhatsApp client is not ready. Please check /status endpoint.".
Definition err_required : string := "Phone number and message are required".
Definition err_not_registered : string := "Phone number is not registered on WhatsApp".
Definition err_failed : string := "Failed to send message: ".

(** [app.post("/send-message", async (req, res) => ...)]; [now] is
    [new Date().toISOString()].  The [console.error] of the catch block only
    writes to the log and is not among the recorded calls. *)
Definition post_send_message (client : Client) (now : string)
    (st : State) (req : SendRequest) : M Response :=
  try_catch
    (if negb (isReady st) then
       ret (status_json 503 [("success", JBool false); ("error", JString err_not_ready)])
     else
       let phoneNumber := phoneNumber req in
       let message := message req in
       if negb (truthy phoneNumber) || negb (truthy message) then
         ret (status_json 400 [("success", JBool false); ("error", JString err_required)])
       else
         formattedNumber <-
           invoke (CallFormatPhoneNumber phoneNumber) (formatPhoneNumber phoneNumber) ;;
         isRegistered <-
           invoke (CallIsRegisteredUser formattedNumber)
                  (isRegisteredUser client formattedNumber) ;;
         if negb isRegistered then
           ret (status_json 400
                  [("success", JBool false); ("error", JString err_not_registered)])
         else
           sentMessageId <-
             invoke (CallSendMessage formattedNumber message)
                    (sendMessage client formattedNumber message) ;;
           ret (json [("success", JBool true);
                      ("messageId", JString sentMessageId);
                      ("to", phoneNumber);
                      ("message", message);
                      ("timestamp", JString now)]))
    (fun error =>
       ret (status_json 500
              [("success", JBool false);
               ("error", JString (err_failed ++ exn_message error))])).

(** The calls of [client.sendMessage] in a trace. *)
Definition sends (calls : list call) : list (string * value) :=
  flat_map (fun c => match c with CallSendMessage a m => [(a, m)] | _ => [] end) calls.

(** *** Sample clients, for the concrete runs below *)

(** A client whose every number is registered and whose sends succeed. *)
Definition client_ok : Client :=
  {| isRegisteredUser := fun _ => Return true;
     sendMessage := fun _ _ => Return "3EB0A1B2C3" |}.

(** A client that knows no number. *)
Definition client_unregistered : Client :=
  {| isRegisteredUser := fun _ => Return false;
     sendMessage := fun _ _ => Return "3EB0A1B2C3" |}.

(** A client whose transport fails on every send. *)
Definition client_failing : Client :=
  {| isRegisteredUser := fun _ => Return true;
     sendMessage := fun _ _ => Throw (Error "Evaluation failed") |}.

(** The state after the client's ready event. *)
Definition ready_state : State := {| isReady := true; qrCodeData := None |}.

End Gateway.

Import Gateway.

(** ** The read-only endpoints *)

Module Endpoints.

(** [app.get("/status", ...)] *)
Definition get_status (st : State) : Response :=
  json [("status", JString (if isReady st then "ready" else "not_ready"));
        ("qrCode", qr_value (qrCodeData st));
        ("message",
         JString (if isReady st
                  then "Bot is ready to send messages"
                  else "Bot is not ready. Please scan QR code if available."))].

(** [app.get("/health", ...)]; [now] is [new Date().toISOString()]. *)
Definition get_health (now : string) (st : State) : Response :=
  json [("status", JString "healthy");
        ("timestamp", JString now);
        ("whatsappReady", JBool (isReady st))].

End Endpoints.

Import Endpoints.

(** ** Runs of the event handlers *)

Module Runs.

(** The effects performed while a sequence of events is delivered, in
    order. *)
Fixpoint effects_after (evs : list event) (st : State) : list effect :=
  match evs with
  | [] => []
  | e :: rest => (snd (on e st) ++ effects_after rest (fst (on e st)))%list
  end.

Definition is_ready_event (e : event) : bool :=
  match e with Ready => true | _ => false end.

Definition is_qr_event (e : event) : bool :=
  match e with Qr _ => true | _ => false end.

Definition is_disconnected (e : event) : bool :=
  match e with Disconnected _ => true | _ => false end.

(** The events whose handlers assign [isReady = false]. *)
Definition clears_ready (e : event) : bool :=
  match e with AuthFailure _ | Disconnected _ => true | _ => false end.

(** The events whose handlers only write to the log. *)
Definition log_only (e : event) : bool :=
  match e with
  | LoadingScreen _ _ | Authenticated | ChangeState _ => true
  | _ => false
  end.

End Runs.

Import Runs.

(** ** The request, from the body parsers to the answer *)

Module Pipeline.

(** What a [throw] or a rejected promise carries, as far as the catch
    block of the handler tells values apart when it reads
    [error.message]. *)
Inductive thrown : Type :=
| ThrownError (e : exn)   (* an error object, with its message *)
| ThrownOther             (* any other value but [null] and [undefined]:
                             its [message] reads as [undefined] *)
| ThrownNull
| ThrownUndefined.

(** How an awaited call of the client ends, if it ends. *)
Inductive settlement (A : Type) : Type :=
| Fulfilled (a : A)
| Rejected (t : thrown)
| Pending.
Arguments Fulfilled {A} a.
Arguments Rejected {A} t.
Arguments Pending {A}.

(** The client as the handler awaits it: [await client.isRegisteredUser(a)]
    and [await client.sendMessage(a, text)] followed by the read of
    [id.id]. *)
Record AsyncClient : Type := {
  awaitIsRegisteredUser : string -> settlement bool;
  awaitSendMessage : string -> value -> settlement string
}.

(** How the evaluation of asynchronous handler code ends: with a value,
    with an exception, or never (an awaited promise stays pending). *)
Inductive step (A : Type) : Type :=
| Done (a : A)
| Raised (t : thrown)
| Stuck.
Arguments Done {A} a.
Arguments Raised {A} t.
Arguments Stuck {A}.

(** Asynchronous handler code: the calls made and how the code ended. *)
Definition P (A : Type) : Type := (list call * step A)%type.

Definition unit_P {A : Type} (a : A) : P A := ([], Done a).

Definition bind_P {A B : Type} (m : P A) (k : A -> P B) : P B :=
  match m with
  | (calls, Done a) => let (calls', r) := k a in ((calls ++ calls')%list, r)
  | (calls, Raised t) => (calls, Raised t)
  | (calls, Stuck) => (calls, Stuck)
  end.

(** [throw t] *)
Definition raise_P {A : Type} (t : thrown) : P A := ([], Raised t).

(** A synchronous call, recorded. *)
Definition invoke_P {A : Type} (c : call) (r : completion A) : P A :=
  ([c], match r with
        | Return a => Done a
        | Throw e => Raised (ThrownError e)
        end).

(** [await] of a call of the client, recorded. *)
Definition await_P {A : Type} (c : call) (s : settlement A) : P A :=
  ([c], match s with
        | Fulfilled a => Done a
        | Rejected t => Raised t
        | Pending => Stuck
        end).

(** [try { m } catch (error) { handler }]: a pending [await] inside [m]
    never reaches the catch block. *)
Definition try_catch_P {A : Type} (m : P A) (handler : thrown -> P A) : P A :=
  match m with
  | (calls, Raised t) => let (calls', r) := handler t in ((calls ++ calls')%list, r)
  | _ => m
  end.

Notation "x <~ m ;; k" := (bind_P m (fun x => k))
  (at level 61, m at next level, right associativity).

(** [const { phoneNumber, message } = req.body]; [None] is a [req.body]
    that is [undefined] (no parser filled it in). *)
Definition destructure (body : option SendRequest) : P SendRequest :=
  match body with
  | Some req => unit_P req
  | None =>
      raise_P (ThrownError (TypeError
        "Cannot destructure property 'phoneNumber' of 'req.body' as it is undefined."))
  end.

(** ["Failed to send message: " + error.message] *)
Definition failed_with (error : thrown) : P string :=
  match error with
  | ThrownError e => unit_P (err_failed ++ exn_message e)
  | ThrownOther => unit_P (err_failed ++ "undefined")
  | ThrownNull =>
      raise_P (ThrownError (TypeError
        "Cannot read properties of null (reading 'message')"))
  | ThrownUndefined =>
      raise_P (ThrownError (TypeError
        "Cannot read properties of undefined (reading 'message')"))
  end.

(** [app.post("/send-message", async (req, res) => ...)], with [req.body]
    as the parsers left it and the client as it is awaited.  [Done r]: the
    handler sent [r]; [Raised t]: the promise of the handler is rejected
    with [t] and nothing was sent; [Stuck]: the handler never finishes and
    nothing was sent. *)
Definition handle_send_message (client : AsyncClient) (now : string)
    (st : State) (body : option SendRequest) : P Response :=
  try_catch_P
    (if negb (isReady st) then
       unit_P (status_json 503
                 [("success", JBool false); ("error", JString err_not_ready)])
     else
       req <~ destructure body ;;
       let phoneNumber := phoneNumber req in
       let message := message req in
       if negb (truthy phoneNumber) || negb (truthy message) then
         unit_P (status_json 400
                   [("success", JBool false); ("error", JString err_required)])
       else
         formattedNumber <~
           invoke_P (CallFormatPhoneNumber phoneNumber)
                    (formatPhoneNumber phoneNumber) ;;
         isRegistered <~
           await_P (CallIsRegisteredUser formattedNumber)
                   (awaitIsRegisteredUser client formattedNumber) ;;
         if negb isRegistered then
           unit_P (status_json 400
                     [("success", JBool false);
                      ("error", JString err_not_registered)])
         else
           sentMessageId <~
             await_P (CallSendMessage formattedNumber message)
                     (awaitSendMessage client formattedNumber message) ;;
           unit_P (json [("success", JBool true);
                         ("messageId", JString sentMessageId);
                         ("to", phoneNumber);
                         ("message", message);
                         ("timestamp", JString now)]))
    (fun error =>
       text <~ failed_with error ;;
       unit_P (status_json 500
                 [("success", JBool false); ("error", JString text)])).

(** The error-handling middleware, [app.use((err, req, res, next) => ...)]. *)
Definition error_middleware : Response :=
  status_json 500 [("success", JBool false); ("error", JString "Internal server error")].

(** What [express.json()] and [express.urlencoded()] make of the request
    before the route is reached: they refuse the body (and pass their error
    on with [next(err)]), or they pass the request on, with [req.body] an
    object or left [undefined]. *)
Inductive parsed : Type :=
| BodyRefused
| BodyPassed (body : option SendRequest).

(** A [POST /send-message] request through the middleware stack. *)
Definition serve_send_message (client : AsyncClient) (now : string)
    (st : State) (request : parsed) : P Response :=
  match request with
  | BodyRefused => unit_P error_middleware
  | BodyPassed body => handle_send_message client now st body
  end.

(** A client whose calls all settle, with a value or an error object. *)
Definition settled (client : Client) : AsyncClient :=
  {| awaitIsRegisteredUser := fun a =>
       match isRegisteredUser client a with
       | Return b => Fulfilled b
       | Throw e => Rejected (ThrownError e)
       end;
     awaitSendMessage := fun a text =>
       match sendMessage client a text with
       | Return id => Fulfilled id
       | Throw e => Rejected (ThrownError e)
       end |}.

Definition settled_step {A : Type} (m : M A) : P A :=
  match m with
  | (calls, Return a) => (calls, Done a)
  | (calls, Throw e) => (calls, Raised (ThrownError e))
  end.

(** The catch block as a function of what was thrown. *)
Definition caught (error : thrown) : step Response :=
  match error with
  | ThrownError e =>
      Done (status_json 500
              [("success", JBool false);
               ("error", JString (err_failed ++ exn_message e))])
  | ThrownOther =>
      Done (status_json 500
              [("success", JBool false);
               ("error", JString (err_failed ++ "undefined"))])
  | ThrownNull =>
      Raised (ThrownError (TypeError
        "Cannot read properties of null (reading 'message')"))
  | ThrownUndefined =>
      Raised (ThrownError (TypeError
        "Cannot read properties of undefined (reading 'message')"))
  end.

(** The handler gets as far as asking the client about address [a]: the
    tracker is ready, the body is an object [req] with two truthy fields, and
    the normalizer returned [a]. *)
Definition reaches_client (st : State) (req_body : option SendRequest)
    (req : SendRequest) (a : string) : Prop :=
  req_body = Some req /\
  isReady st = true /\
  truthy (phoneNumber req) = true /\ truthy (message req) = true /\
  formatPhoneNumber (phoneNumber req) = Return a.

Definition nullish (t : thrown) : bool :=
  match t with ThrownNull | ThrownUndefined => true | _ => false end.

(** A client that never answers. *)
Definition client_hanging : AsyncClient :=
  {| awaitIsRegisteredUser := fun _ => Pending;
     awaitSendMessage := fun _ _ => Pending |}.

End Pipeline.

Import Pipeline.

(** ** Facts about the primitives *)

Lemma class_d_is_decimal_digit (c : ascii) : class_d c = is_decimal_digit c.
Proof.
  destruct c as [[] [] [] [] [] [] [] []]; reflexivity.
Qed.

Lemma replace_class_D_digits_of (s : string) :
  replace_class_g class_D "" s = digits_of s.
Proof.
  unfold digits_of.
  induction s as [|c rest IH]; simpl; [reflexivity|].
  unfold class_D at 1. rewrite class_d_is_decimal_digit.
  destruct (is_decimal_digit c); simpl; rewrite IH; reflexivity.
Qed.

Lemma all_digits_digits_of (s : string) : all_digits (digits_of s) = true.
Proof.
  unfold all_digits, digits_of.
  rewrite list_ascii_of_string_of_list_ascii.
  apply forallb_forall. intros c Hc.
  apply filter_In in Hc. tauto.
Qed.

Lemma digits_of_all_digits (s : string) :
  all_digits s = true -> digits_of s = s.
Proof.
  unfold all_digits, digits_of.
  induction s as [|c rest IH]; simpl; [reflexivity|].
  intros H. apply andb_true_iff in H. destruct H as [Hc Hrest].
  rewrite Hc. simpl. rewrite (IH Hrest). reflexivity.
Qed.

Lemma digits_of_app (s t : string) :
  digits_of (s ++ t) = digits_of s ++ digits_of t.
Proof.
  unfold digits_of.
  induction s as [|c rest IH]; simpl; [reflexivity|].
  destruct (is_decimal_digit c); simpl; rewrite IH; reflexivity.
Qed.

Lemma substring_whole (s : string) : String.substring 0 (String.length s) s = s.
Proof.
  induction s as [|c rest IH]; simpl; [reflexivity|].
  rewrite IH. reflexivity.
Qed.

Lemma substring_from_1 (c : ascii) (rest : string) :
  substring_from 1 (String c rest) = rest.
Proof.
  unfold substring_from. simpl. rewrite Nat.sub_0_r. apply substring_whole.
Qed.

Lemma prefix_empty (s : string) : String.prefix "" s = true.
Proof. destruct s; reflexivity. Qed.

Lemma length_app (s t : string) :
  String.length (s ++ t) = String.length s + String.length t.
Proof.
  induction s as [|c rest IH]; simpl; [reflexivity|].
  rewrite IH. reflexivity.
Qed.

Lemma strip_suffix_app (suffix d : string) :
  strip_suffix suffix (d ++ suffix) = d.
Proof.
  induction d as [|c rest IH].
  - simpl. destruct suffix; simpl.
    + reflexivity.
    + rewrite Ascii.eqb_refl, String.eqb_refl. reflexivity.
  - cbn [append].
    assert (Hne : (String c (rest ++ suffix) =? suffix) = false).
    { apply String.eqb_neq. intros Heq.
      apply (f_equal String.length) in Heq. simpl in Heq.
      rewrite length_app in Heq. lia. }
    simpl strip_suffix. simpl in Hne. rewrite Hne.
    destruct suffix; rewrite IH; reflexivity.
Qed.

(** ** The normalizer *)

Example formatPhoneNumber_local :
  formatPhoneNumber (JString "0788123456") = Return "250788123456@c.us".
Proof. reflexivity. Qed.

Example formatPhoneNumber_bare :
  formatPhoneNumber (JString "788123456") = Return "250788123456@c.us".
Proof. reflexivity. Qed.

Example formatPhoneNumber_separators :
  formatPhoneNumber (JString "+250 (788) 123-456") = Return "250788123456@c.us".
Proof. reflexivity. Qed.

Example formatPhoneNumber_eleven_digits :
  formatPhoneNumber (JString "25078812345") = Throw (InvalidFormat msg_country_code).
Proof. reflexivity. Qed.

Example formatPhoneNumber_no_digits :
  digits_of "abc" = "" /\
  formatPhoneNumber (JString "abc") = Throw (InvalidFormat msg_format).
Proof. split; reflexivity. Qed.

(** The source and the specification's wording compute the same result. *)
Lemma formatPhoneNumber_string_spec (s : string) :
  formatPhoneNumber_string s = normalize_spec s.
Proof.
  unfold formatPhoneNumber_string, normalize_spec, classify_digits, startsWith, InvalidFormat.
  rewrite replace_class_D_digits_of.
  generalize (digits_of s). intros d.
  destruct d as [|c0 d0].
  { reflexivity. }
  destruct (Ascii.eqb_spec c0 "0"%char) as [->|H0].
  { cbn [String.prefix]. rewrite prefix_empty.
    rewrite substring_from_1.
    destruct (Ascii.ascii_dec "0" "2") as [E|_]; [discriminate E|].
    destruct (Ascii.ascii_dec "0" "0") as [_|E]; [|contradiction].
    destruct (String.length (String "0" d0) =? 10)%nat; reflexivity. }
  destruct (Ascii.eqb_spec c0 "2"%char) as [->|H2].
  2:{ cbn [String.prefix].
      destruct (Ascii.ascii_dec "2" c0) as [E|_]; [congruence|].
      destruct (Ascii.ascii_dec "0" c0) as [E|_]; [congruence|].
      destruct c0 as [[] [] [] [] [] [] [] []]; try reflexivity; congruence. }
  destruct d0 as [|c1 d1]; [reflexivity|].
  destruct (Ascii.eqb_spec c1 "5"%char) as [->|H5].
  2:{ cbn [String.prefix].
      destruct (Ascii.ascii_dec "2" "2") as [_|E]; [|contradiction].
      destruct (Ascii.ascii_dec "5" c1) as [E|_]; [congruence|].
      destruct (Ascii.ascii_dec "0" "2") as [E|_]; [discriminate E|].
      destruct c1 as [[] [] [] [] [] [] [] []]; try reflexivity; congruence. }
  destruct d1 as [|c2 d2]; [reflexivity|].
  destruct (Ascii.eqb_spec c2 "0"%char) as [->|H0'].
  2:{ cbn [String.prefix].
      destruct (Ascii.ascii_dec "2" "2") as [_|E]; [|contradiction].
      destruct (Ascii.ascii_dec "5" "5") as [_|E]; [|contradiction].
      destruct (Ascii.ascii_dec "0" c2) as [E|_]; [congruence|].
      destruct (Ascii.ascii_dec "0" "2") as [E|_]; [discriminate E|].
      destruct c2 as [[] [] [] [] [] [] [] []]; try reflexivity; congruence. }
  cbn [String.prefix]. rewrite prefix_empty.
  destruct (Ascii.ascii_dec "2" "2") as [_|E]; [|contradiction].
  destruct (Ascii.ascii_dec "5" "5") as [_|E]; [|contradiction].
  destruct (Ascii.ascii_dec "0" "0") as [_|E]; [|contradiction].
  destruct (String.length (String "2" (String "5" (String "0" d2))) =? 12)%nat; reflexivity.
Qed.

Lemma classify_digits_other (d : string) :
  String.prefix "250" d = false -> String.prefix "0" d = false ->
  classify_digits d =
    if (String.length d =? 9)%nat then Return ("250" ++ d ++ "@c.us")
    else Throw (InvalidFormat msg_format).
Proof.
  intros H250 H0.
  destruct d as [|c0 d0]; [reflexivity|].
  cbn [String.prefix] in H0. rewrite prefix_empty in H0.
  destruct (Ascii.ascii_dec "0" c0) as [E|N0]; [discriminate H0|].
  cbn [String.prefix] in H250.
  destruct (Ascii.ascii_dec "2" c0) as [<-|N2].
  2:{ destruct c0 as [[] [] [] [] [] [] [] []]; try reflexivity; congruence. }
  destruct d0 as [|c1 d1]; [reflexivity|].
  cbn [String.prefix] in H250.
  destruct (Ascii.ascii_dec "5" c1) as [<-|N5].
  2:{ destruct c1 as [[] [] [] [] [] [] [] []]; try reflexivity; congruence. }
  destruct d1 as [|c2 d2]; [reflexivity|].
  cbn [String.prefix] in H250. rewrite prefix_empty in H250.
  destruct (Ascii.ascii_dec "0" c2) as [E|N0']; [discriminate H250|].
  destruct c2 as [[] [] [] [] [] [] [] []]; try reflexivity; congruence.
Qed.

Lemma eqb_length_cases (n m : nat) :
  (n = m -> (n =? m)%nat = true) /\ (n <> m -> (n =? m)%nat = false).
Proof.
  split; intros H; [apply Nat.eqb_eq | apply Nat.eqb_neq]; exact H.
Qed.

(** C2. For every input string, [formatPhoneNumber] first drops every
    character that is not a decimal digit and then classifies the digits
    left: digits starting with 250 succeed with digits+"@c.us" exactly when
    there are 12 of them; digits starting with 0 succeed with 250, the digits
    after the 0 and "@c.us" exactly when there are 10; any other digits
    succeed with 250+digits+"@c.us" exactly when there are 9; every other
    shape fails with [InvalidFormat].  The function is total and raises
    nothing but that failure. *)
Theorem formatPhoneNumber_classification (s : string) :
  let d := digits_of s in
  let out := formatPhoneNumber (JString s) in
  replace_class_g class_D "" s = d /\
  all_digits d = true /\
  out = normalize_spec s /\
  (forall r, d = "250" ++ r ->
     (String.length d = 12 -> out = Return (d ++ "@c.us")) /\
     (String.length d <> 12 -> out = Throw (InvalidFormat msg_country_code))) /\
  (forall r, d = "0" ++ r ->
     (String.length d = 10 -> out = Return ("250" ++ r ++ "@c.us")) /\
     (String.length d <> 10 -> out = Throw (InvalidFormat msg_local))) /\
  (String.prefix "250" d = false -> String.prefix "0" d = false ->
     (String.length d = 9 -> out = Return ("250" ++ d ++ "@c.us")) /\
     (String.length d <> 9 -> out = Throw (InvalidFormat msg_format))) /\
  (d = "" -> out = Throw (InvalidFormat msg_format)) /\
  ((exists a, out = Return a) \/ (exists m, out = Throw (InvalidFormat m))).
Proof.
  intros d out.
  assert (Hout : out = classify_digits d).
  { unfold out. cbn [formatPhoneNumber]. apply formatPhoneNumber_string_spec. }
  split; [apply replace_class_D_digits_of|].
  split; [apply all_digits_digits_of|].
  split; [exact Hout|].
  rewrite Hout. clear Hout out. generalize d. clear d s. intros d.
  assert (Hlen : forall n, (String.length d = n -> (String.length d =? n)%nat = true) /\
                           (String.length d <> n -> (String.length d =? n)%nat = false))
    by (intros n; apply eqb_length_cases).
  refine (conj _ (conj _ (conj _ (conj _ _)))).
  - intros r Hd. revert Hlen. rewrite Hd. cbn [append classify_digits]. intros Hlen.
    split; intros H; apply Hlen in H; rewrite H; reflexivity.
  - intros r Hd. revert Hlen. rewrite Hd. cbn [append classify_digits]. intros Hlen.
    split; intros H; apply Hlen in H; rewrite H; reflexivity.
  - intros H250 H0. rewrite (classify_digits_other d H250 H0).
    split; intros H; apply Hlen in H; rewrite H; reflexivity.
  - intros ->. reflexivity.
  - unfold classify_digits, InvalidFormat.
    repeat match goal with
           | |- context [match ?x with _ => _ end] => destruct x
           end; eauto.
Qed.

Lemma prefix_250_inv (d : string) :
  String.prefix "250" d = true -> exists r, d = "250" ++ r.
Proof.
  intros H.
  destruct d as [|c0 [|c1 [|c2 r]]]; cbn [String.prefix] in H;
    repeat match type of H with
           | context [Ascii.ascii_dec ?a ?b] =>
               destruct (Ascii.ascii_dec a b) as [<-|]
           end; try discriminate H.
  exists r. reflexivity.
Qed.

Lemma formatPhoneNumber_canonical (d : string) :
  all_digits d = true -> String.length d = 12 -> String.prefix "250" d = true ->
  formatPhoneNumber (JString d) = Return (d ++ "@c.us").
Proof.
  intros Hdigits Hlen Hprefix.
  destruct (prefix_250_inv d Hprefix) as [r Hr].
  cbn [formatPhoneNumber]. rewrite formatPhoneNumber_string_spec.
  unfold normalize_spec. rewrite (digits_of_all_digits d Hdigits).
  apply Nat.eqb_eq in Hlen. revert Hlen. rewrite Hr.
  cbn [append classify_digits]. intros Hlen. rewrite Hlen. reflexivity.
Qed.

(** C8. Normalization is idempotent on canonical output: a 12-digit string
    [d] starting with 250 normalizes to [d ++ "@c.us"], and normalizing that
    result again after removing its "@c.us" suffix gives the same address. *)
Theorem formatPhoneNumber_idempotent_on_canonical (d : string) :
  all_digits d = true -> String.length d = 12 -> String.prefix "250" d = true ->
  formatPhoneNumber (JString d) = Return (d ++ "@c.us") /\
  formatPhoneNumber (JString (strip_suffix "@c.us" (d ++ "@c.us")))
    = Return (d ++ "@c.us").
Proof.
  intros Hdigits Hlen Hprefix.
  rewrite strip_suffix_app.
  split; apply formatPhoneNumber_canonical; assumption.
Qed.

Lemma formatPhoneNumber_idempotent_on_canonical_witness :
  formatPhoneNumber (JString "250788123456") = Return "250788123456@c.us" /\
  formatPhoneNumber (JString (strip_suffix "@c.us" "250788123456@c.us"))
    = Return "250788123456@c.us".
Proof.
  apply (formatPhoneNumber_idempotent_on_canonical "250788123456");
    reflexivity.
Defined.

(** ** The connection state *)

Example state_after_scan :
  state_after [Qr "2@token"; Authenticated; Ready] initial
    = {| isReady := true; qrCodeData := None |}.
Proof. reflexivity. Qed.

(** C3. Each lifecycle event has exactly the stated effect: a QR payload
    [p] sets [qrCodeData] to [p] and leaves [isReady]; ready sets [isReady]
    and clears [qrCodeData]; authenticated changes nothing; an
    authentication failure clears [isReady] and leaves [qrCodeData]; a
    disconnection clears [isReady] and schedules one reinitialization of
    the client after 5000 ms, and no other event schedules a timer. *)
Theorem on_event_effects :
  (forall st p,
     fst (on (Qr p) st) = {| isReady := isReady st; qrCodeData := Some p |}) /\
  (forall st,
     fst (on Ready st) = {| isReady := true; qrCodeData := None |}) /\
  (forall st, fst (on Authenticated st) = st) /\
  (forall st msg,
     fst (on (AuthFailure msg) st)
       = {| isReady := false; qrCodeData := qrCodeData st |}) /\
  (forall st reason,
     fst (on (Disconnected reason) st)
       = {| isReady := false; qrCodeData := qrCodeData st |} /\
     timers (snd (on (Disconnected reason) st)) = [(ClientInitialize, 5000%Z)]) /\
  (forall st e,
     timers (snd (on e st)) =
       match e with
       | Disconnected _ => [(ClientInitialize, 5000%Z)]
       | _ => []
       end).
Proof.
  repeat split.
  destruct e; reflexivity.
Qed.

(** The invariant of the tracker when QR payloads arrive only while it is
    not ready. *)
Lemma on_preserves_qr_not_ready (st : State) (e : event) :
  qr_only_while_not_ready st e ->
  (qrCodeData st <> None -> isReady st = false) ->
  qrCodeData (fst (on e st)) <> None -> isReady (fst (on e st)) = false.
Proof.
  intros Hallowed IH.
  destruct e; cbn [on fst isReady qrCodeData]; try exact IH.
  - intros _. apply (Hallowed qr). reflexivity.
  - intros H. contradiction H. reflexivity.
  - intros _. reflexivity.
  - intros _. reflexivity.
Qed.

(** C4, as stated, fails: a QR payload issued after the ready event leaves
    [qrCodeData] set while [isReady] is true. *)
Lemma qr_after_ready_counterexample :
  state_after [Ready; Qr "2@token"] initial
    = {| isReady := true; qrCodeData := Some "2@token" |} /\
  ~ (forall st, reachable any_delivery st ->
                qrCodeData st <> None -> isReady st = false).
Proof.
  split; [reflexivity|].
  intros H.
  specialize (H (fst (on (Qr "2@token") (fst (on Ready initial))))).
  assert (Hreach : reachable any_delivery
                     (fst (on (Qr "2@token") (fst (on Ready initial))))).
  { apply reachable_on; [apply reachable_on; [apply reachable_initial|]|];
      exact I. }
  specialize (H Hreach). cbn in H.
  assert (Hfalse : true = false) by (apply H; discriminate).
  discriminate Hfalse.
Qed.

(** C4, amended.  In every state reached from the initial one by lifecycle
    events among which QR payloads are issued only while [isReady] is
    false, a set [qrCodeData] implies that [isReady] is false. *)
Theorem qr_pending_implies_not_ready (st : State) :
  reachable qr_only_while_not_ready st ->
  qrCodeData st <> None -> isReady st = false.
Proof.
  intros Hreach.
  induction Hreach as [|st e Hreach IH Hallowed].
  - intros _. reflexivity.
  - apply on_preserves_qr_not_ready; assumption.
Qed.

Lemma qr_pending_implies_not_ready_witness :
  isReady (fst (on (Qr "2@token") (fst (on (Disconnected "NAVIGATION") (fst (on Ready initial))))))
    = false.
Proof.
  apply qr_pending_implies_not_ready.
  - apply reachable_on; [apply reachable_on; [apply reachable_on|]|].
    + apply reachable_initial.
    + intros qr E. discriminate E.
    + intros qr E. discriminate E.
    + intros qr E. reflexivity.
  - cbn. discriminate.
Defined.

Lemma reachable_state_after (evs : list event) (st : State) :
  reachable any_delivery st -> reachable any_delivery (state_after evs st).
Proof.
  revert st.
  induction evs as [|e evs IH]; intros st Hst; cbn [state_after fold_left].
  - exact Hst.
  - apply IH. apply reachable_on; [exact Hst | exact I].
Qed.

(** ** GET /qr *)

Example get_qr_pending :
  get_qr {| isReady := false; qrCodeData := Some "2@token" |}
    = json [("qrCode", JString "2@token");
            ("message", JString "Please scan this QR code with your WhatsApp mobile app")].
Proof. reflexivity. Qed.

(** C7, as stated, fails: with [qrCodeData] set to the empty string the
    test [if (qrCodeData)] is false, and the body carries no QR payload. *)
Lemma get_qr_empty_payload_counterexample :
  state_after [Qr ""] initial = {| isReady := false; qrCodeData := Some "" |} /\
  qrCodeData (state_after [Qr ""] initial) <> None /\
  get_qr (state_after [Qr ""] initial)
    = json [("message", JString "QR code not available yet. Please wait...")] /\
  field "qrCode" (body (get_qr (state_after [Qr ""] initial))) = JUndefined.
Proof.
  repeat split. discriminate.
Qed.

(** C7, amended.  [GET /qr] always answers 200; when [qrCodeData] is set to
    a non-empty payload the body holds that payload and the scan
    instructions, whatever [isReady] is; otherwise (no payload, or the empty
    one) the body says the bot is already authenticated when [isReady] is
    true and that the QR code is not available yet when it is false. *)
Theorem get_qr_priority (st : State) :
  status (get_qr st) = 200%Z /\
  (forall p, qrCodeData st = Some p -> p <> "" ->
     body (get_qr st)
       = [("qrCode", JString p);
          ("message", JString "Please scan this QR code with your WhatsApp mobile app")]) /\
  (qrCodeData st = None \/ qrCodeData st = Some "" ->
     body (get_qr st)
       = if isReady st
         then [("message", JString "Bot is already authenticated and ready")]
         else [("message", JString "QR code not available yet. Please wait...")]).
Proof.
  unfold get_qr.
  split; [|split].
  - destruct (truthy _), (isReady st); reflexivity.
  - intros p Hp Hne. rewrite Hp. cbn [qr_value truthy].
    apply String.eqb_neq in Hne. rewrite Hne. reflexivity.
  - intros [H|H]; rewrite H; cbn [qr_value truthy String.eqb negb];
      destruct (isReady st); reflexivity.
Qed.

(** ** POST /send-message *)

Example post_send_message_success :
  post_send_message client_ok "2024-01-01T00:00:00.000Z" ready_state
    {| phoneNumber := JString "0788123456"; message := JString "hello" |}
  = ([CallFormatPhoneNumber (JString "0788123456");
      CallIsRegisteredUser "250788123456@c.us";
      CallSendMessage "250788123456@c.us" (JString "hello")],
     Return (json [("success", JBool true);
                   ("messageId", JString "3EB0A1B2C3");
                   ("to", JString "0788123456");
                   ("message", JString "hello");
                   ("timestamp", JString "2024-01-01T00:00:00.000Z")])).
Proof. reflexivity. Qed.

Example post_send_message_unregistered :
  post_send_message client_unregistered "2024-01-01T00:00:00.000Z" ready_state
    {| phoneNumber := JString "0788123456"; message := JString "hello" |}
  = ([CallFormatPhoneNumber (JString "0788123456");
      CallIsRegisteredUser "250788123456@c.us"],
     Return (status_json 400 [("success", JBool false);
                              ("error", JString err_not_registered)])).
Proof. reflexivity. Qed.

Example post_send_message_transport_failure :
  post_send_message client_failing "2024-01-01T00:00:00.000Z" ready_state
    {| phoneNumber := JString "0788123456"; message := JString "hello" |}
  = ([CallFormatPhoneNumber (JString "0788123456");
      CallIsRegisteredUser "250788123456@c.us";
      CallSendMessage "250788123456@c.us" (JString "hello")],
     Return (status_json 500
               [("success", JBool false);
                ("error", JString "Failed to send message: Evaluation failed")])).
Proof. reflexivity. Qed.

Section Handler.

Variable client : Client.
Variable now : string.

(** Not ready: the first test of the handler answers. *)
Lemma post_send_message_not_ready (st : State) (req : SendRequest) :
  isReady st = false ->
  post_send_message client now st req
    = ([], Return (status_json 503 [("success", JBool false);
                                    ("error", JString err_not_ready)])).
Proof.
  intros Hready. unfold post_send_message. rewrite Hready. reflexivity.
Qed.

(** Ready, and one of the two fields is falsy: the second test answers. *)
Lemma post_send_message_falsy_field (st : State) (req : SendRequest) :
  isReady st = true ->
  truthy (phoneNumber req) = false \/ truthy (message req) = false ->
  post_send_message client now st req
    = ([], Return (status_json 400 [("success", JBool false);
                                    ("error", JString err_required)])).
Proof.
  intros Hready Hfalsy. unfold post_send_message. rewrite Hready.
  cbn [negb].
  assert (Htest : negb (truthy (phoneNumber req)) || negb (truthy (message req)) = true).
  { destruct Hfalsy as [H|H]; rewrite H; cbn [negb orb]; [reflexivity|].
    apply orb_true_r. }
  rewrite Htest. reflexivity.
Qed.

(** Ready and both fields truthy: the handler goes on to the normalizer. *)
Lemma post_send_message_truthy_fields (st : State) (req : SendRequest) :
  isReady st = true ->
  truthy (phoneNumber req) = true -> truthy (message req) = true ->
  post_send_message client now st req
    = try_catch
        (formattedNumber <-
           invoke (CallFormatPhoneNumber (phoneNumber req))
                  (formatPhoneNumber (phoneNumber req)) ;;
         isRegistered <-
           invoke (CallIsRegisteredUser formattedNumber)
                  (isRegisteredUser client formattedNumber) ;;
         if negb isRegistered then
           ret (status_json 400
                  [("success", JBool false); ("error", JString err_not_registered)])
         else
           sentMessageId <-
             invoke (CallSendMessage formattedNumber (message req))
                    (sendMessage client formattedNumber (message req)) ;;
           ret (json [("success", JBool true);
                      ("messageId", JString sentMessageId);
                      ("to", phoneNumber req);
                      ("message", message req);
                      ("timestamp", JString now)]))
        (fun error =>
           ret (status_json 500
                  [("success", JBool false);
                   ("error", JString (err_failed ++ exn_message error))])).
Proof.
  intros Hready Hp Hm. unfold post_send_message.
  rewrite Hready, Hp, Hm. reflexivity.
Qed.

(** The handler always answers: the catch block turns every exception
    into a response. *)
Lemma post_send_message_responds (st : State) (req : SendRequest) :
  exists r, snd (post_send_message client now st req) = Return r.
Proof.
  destruct (isReady st) eqn:Hready.
  2:{ rewrite post_send_message_not_ready by exact Hready. eexists. reflexivity. }
  destruct (truthy (phoneNumber req)) eqn:Hp.
  2:{ rewrite post_send_message_falsy_field by auto. eexists. reflexivity. }
  destruct (truthy (message req)) eqn:Hm.
  2:{ rewrite post_send_message_falsy_field by auto. eexists. reflexivity. }
  rewrite post_send_message_truthy_fields by assumption.
  unfold invoke, bind, try_catch, ret.
  destruct (formatPhoneNumber (phoneNumber req)) as [a|e]; [|eexists; reflexivity].
  destruct (isRegisteredUser client a) as [[|]|e]; cbn [negb];
    [|eexists; reflexivity|eexists; reflexivity].
  destruct (sendMessage client a (message req)); eexists; reflexivity.
Qed.

End Handler.

(** C10. While [isReady] is true, an empty-string [phoneNumber] or
    [message] is treated exactly like an absent field: the answer is the 400
    of the missing-field test, the same as for the request with that field
    absent, and nothing is called (no normalization, no registration
    lookup, no send). *)
Theorem post_send_message_empty_string_as_absent
    (client : Client) (now : string) (st : State) (req : SendRequest) :
  isReady st = true ->
  phoneNumber req = JString "" \/ message req = JString "" ->
  post_send_message client now st req
    = ([], Return (status_json 400 [("success", JBool false);
                                    ("error", JString err_required)])) /\
  (phoneNumber req = JString "" ->
   post_send_message client now st req
     = post_send_message client now st
         {| phoneNumber := JUndefined; message := message req |}) /\
  (message req = JString "" ->
   post_send_message client now st req
     = post_send_message client now st
         {| phoneNumber := phoneNumber req; message := JUndefined |}).
Proof.
  intros Hready Hempty.
  assert (Hfalsy : truthy (phoneNumber req) = false \/ truthy (message req) = false).
  { destruct Hempty as [H|H]; rewrite H; [left|right]; reflexivity. }
  rewrite (post_send_message_falsy_field client now st req Hready Hfalsy).
  split; [reflexivity|].
  split; intros _; symmetry; apply post_send_message_falsy_field;
    try exact Hready; [left|right]; reflexivity.
Qed.

Lemma post_send_message_empty_string_as_absent_witness :
  post_send_message client_ok "2024-01-01T00:00:00.000Z" ready_state
    {| phoneNumber := JString ""; message := JString "hello" |}
    = ([], Return (status_json 400 [("success", JBool false);
                                    ("error", JString err_required)])).
Proof.
  refine (proj1 (post_send_message_empty_string_as_absent client_ok
                   "2024-01-01T00:00:00.000Z" ready_state
                   {| phoneNumber := JString ""; message := JString "hello" |}
                   _ _)).
  - reflexivity.
  - left. reflexivity.
Defined.

(** C1, as stated, fails: with the tracker ready and both fields present,
    a phone number the normalizer rejects is answered 500, not 400; the
    catch block of the handler is the only place a failure is answered. *)
Lemma post_send_message_invalid_phone_counterexample :
  formatPhoneNumber (JString "abc") = Throw (InvalidFormat msg_format) /\
  post_send_message client_ok "2024-01-01T00:00:00.000Z" ready_state
    {| phoneNumber := JString "abc"; message := JString "hello" |}
  = ([CallFormatPhoneNumber (JString "abc")],
     Return (status_json 500
               [("success", JBool false);
                ("error", JString ("Failed to send message: " ++ msg_format))])) /\
  ~ (forall client now st req e,
       isReady st = true ->
       truthy (phoneNumber req) = true -> truthy (message req) = true ->
       formatPhoneNumber (phoneNumber req) = Throw e ->
       exists r,
         snd (post_send_message client now st req) = Return r /\
         status r = 400%Z /\
         field "error" (body r) = JString (exn_message e)).
Proof.
  split; [reflexivity|]. split; [reflexivity|].
  intros H.
  destruct (H client_ok "2024-01-01T00:00:00.000Z" ready_state
              {| phoneNumber := JString "abc"; message := JString "hello" |}
              (InvalidFormat msg_format)
              eq_refl eq_refl eq_refl eq_refl) as (r & Hr & Hstatus & _).
  cbn in Hr. injection Hr as <-. discriminate Hstatus.
Qed.

(** C1, amended.  While [isReady] is true and both fields are present
    (truthy, so that normalization is attempted), a failure of the
    normalizer is answered with status 500, and the error field is
    "Failed to send message: " followed by the normalizer's message;
    nothing is called after the normalizer. *)
Theorem post_send_message_500_when_normalization_fails
    (client : Client) (now : string) (st : State) (req : SendRequest) (e : exn) :
  isReady st = true ->
  truthy (phoneNumber req) = true -> truthy (message req) = true ->
  formatPhoneNumber (phoneNumber req) = Throw e ->
  exists r,
    post_send_message client now st req
      = ([CallFormatPhoneNumber (phoneNumber req)], Return r) /\
    status r = 500%Z /\
    field "success" (body r) = JBool false /\
    field "error" (body r) = JString ("Failed to send message: " ++ exn_message e).
Proof.
  intros Hready Hp Hm Hfail.
  rewrite (post_send_message_truthy_fields client now st req Hready Hp Hm).
  unfold invoke, bind, try_catch, ret. rewrite Hfail.
  eexists. split; [reflexivity|]. repeat split.
Qed.

Lemma post_send_message_500_when_normalization_fails_witness :
  exists r,
    post_send_message client_ok "2024-01-01T00:00:00.000Z" ready_state
      {| phoneNumber := JString "25078812345"; message := JString "hello" |}
      = ([CallFormatPhoneNumber (JString "25078812345")], Return r) /\
    status r = 500%Z /\
    field "success" (body r) = JBool false /\
    field "error" (body r)
      = JString ("Failed to send message: " ++ msg_country_code).
Proof.
  apply (post_send_message_500_when_normalization_fails client_ok
           "2024-01-01T00:00:00.000Z" ready_state
           {| phoneNumber := JString "25078812345"; message := JString "hello" |}
           (InvalidFormat msg_country_code));
    reflexivity.
Defined.

(** C9. In the handling of one request [client.sendMessage] is called at
    most once, and only after, in this order, [isReady] was true, both
    fields were present, the normalizer returned an address and
    [isRegisteredUser] returned true for that address; the call receives
    that address (not the raw [phoneNumber]) and the request's message. *)
Theorem post_send_message_sends_at_most_once
    (client : Client) (now : string) (st : State) (req : SendRequest) :
  let calls := fst (post_send_message client now st req) in
  (List.length (sends calls) <= 1)%nat /\
  forall address text,
    In (CallSendMessage address text) calls ->
    isReady st = true /\
    truthy (phoneNumber req) = true /\
    truthy (message req) = true /\
    formatPhoneNumber (phoneNumber req) = Return address /\
    isRegisteredUser client address = Return true /\
    text = message req /\
    calls = [CallFormatPhoneNumber (phoneNumber req);
             CallIsRegisteredUser address;
             CallSendMessage address text].
Proof.
  intros calls. subst calls.
  destruct (isReady st) eqn:Hready.
  2:{ rewrite (post_send_message_not_ready client now st req Hready).
      split; [cbn; lia | intros a m []]. }
  destruct (truthy (phoneNumber req)) eqn:Hp.
  2:{ rewrite (post_send_message_falsy_field client now st req Hready (or_introl Hp)).
      split; [cbn; lia | intros a m []]. }
  destruct (truthy (message req)) eqn:Hm.
  2:{ rewrite (post_send_message_falsy_field client now st req Hready (or_intror Hm)).
      split; [cbn; lia | intros a m []]. }
  rewrite (post_send_message_truthy_fields client now st req Hready Hp Hm).
  unfold invoke, bind, try_catch, ret.
  destruct (formatPhoneNumber (phoneNumber req)) as [a|e] eqn:Hformat.
  2:{ split; [cbn; lia|]. intros a m [H|[]]. discriminate H. }
  destruct (isRegisteredUser client a) as [[|]|e] eqn:Hregistered; cbn [negb].
  2:{ split; [cbn; lia|]. intros a' m [H|[H|[]]]; discriminate H. }
  2:{ split; [cbn; lia|]. intros a' m [H|[H|[]]]; discriminate H. }
  destruct (sendMessage client a (message req)) as [id|e]; cbn.
  - split; [lia|].
    intros a' m [H|[H|[H|[]]]]; try discriminate H.
    injection H as <- <-. repeat split; try reflexivity; assumption.
  - split; [lia|].
    intros a' m [H|[H|[H|[]]]]; try discriminate H.
    injection H as <- <-. repeat split; try reflexivity; assumption.
Qed.

(** * Further properties of the code *)

(** ** The normalizer *)

Lemma prefix_0_inv (d : string) :
  String.prefix "0" d = true -> exists r, d = "0" ++ r.
Proof.
  intros H. destruct d as [|c r]; cbn [String.prefix] in H; [discriminate H|].
  destruct (Ascii.ascii_dec "0" c) as [<-|]; [|discriminate H].
  exists r. reflexivity.
Qed.

(** The three branches of the classification, by the shape of the digits. *)
Lemma classify_digits_cases (d : string) :
  (exists r, d = "250" ++ r /\
     classify_digits d =
       if (String.length d =? 12)%nat then Return (d ++ "@c.us")
       else Throw (InvalidFormat msg_country_code)) \/
  (exists r, d = "0" ++ r /\
     classify_digits d =
       if (String.length d =? 10)%nat then Return ("250" ++ r ++ "@c.us")
       else Throw (InvalidFormat msg_local)) \/
  (String.prefix "250" d = false /\ String.prefix "0" d = false /\
     classify_digits d =
       if (String.length d =? 9)%nat then Return ("250" ++ d ++ "@c.us")
       else Throw (InvalidFormat msg_format)).
Proof.
  destruct (String.prefix "250" d) eqn:H250.
  { left. destruct (prefix_250_inv d H250) as [r ->]. exists r.
    split; reflexivity. }
  destruct (String.prefix "0" d) eqn:H0.
  { right; left. destruct (prefix_0_inv d H0) as [r ->]. exists r.
    split; reflexivity. }
  right; right. split; [reflexivity|]. split; [reflexivity|].
  apply classify_digits_other; assumption.
Qed.

Lemma all_digits_cons (c : ascii) (s : string) :
  all_digits (String c s) = true -> is_decimal_digit c = true /\ all_digits s = true.
Proof.
  unfold all_digits. cbn [list_ascii_of_string forallb].
  intros H. apply andb_true_iff in H. exact H.
Qed.

Lemma all_digits_app (s t : string) :
  all_digits s = true -> all_digits t = true -> all_digits (s ++ t) = true.
Proof.
  intros Hs Ht. induction s as [|c s IH]; [exact Ht|].
  apply all_digits_cons in Hs. destruct Hs as [Hc Hs].
  cbn [append]. unfold all_digits. cbn [list_ascii_of_string forallb].
  rewrite Hc. exact (IH Hs).
Qed.

Lemma append_empty_r (s : string) : s ++ "" = s.
Proof.
  induction s as [|c s IH]; [reflexivity|]. cbn [append]. rewrite IH. reflexivity.
Qed.

Lemma append_assoc (s t u : string) : (s ++ t) ++ u = s ++ (t ++ u).
Proof.
  induction s as [|c s IH]; [reflexivity|]. cbn [append]. rewrite IH. reflexivity.
Qed.

(** The address of a subscriber number: what every success returns. *)
Lemma classify_digits_shape (d a : string) :
  all_digits d = true -> classify_digits d = Return a ->
  exists r, all_digits r = true /\ String.length r = 9 /\ a = "250" ++ r ++ "@c.us".
Proof.
  intros Hd Hok.
  destruct (classify_digits_cases d) as [(r & -> & E)|[(r & -> & E)|(_ & _ & E)]];
    rewrite E in Hok; clear E.
  - destruct (String.length ("250" ++ r) =? 12)%nat eqn:Hlen; [|discriminate Hok].
    injection Hok as <-. exists r. apply Nat.eqb_eq in Hlen. cbn in Hlen.
    do 3 (apply all_digits_cons in Hd; destruct Hd as [_ Hd]).
    split; [exact Hd|]. split; [lia|reflexivity].
  - destruct (String.length ("0" ++ r) =? 10)%nat eqn:Hlen; [|discriminate Hok].
    injection Hok as <-. exists r. apply Nat.eqb_eq in Hlen. cbn in Hlen.
    apply all_digits_cons in Hd. destruct Hd as [_ Hd].
    split; [exact Hd|]. split; [lia|reflexivity].
  - destruct (String.length d =? 9)%nat eqn:Hlen; [|discriminate Hok].
    injection Hok as <-. exists d. apply Nat.eqb_eq in Hlen.
    split; [exact Hd|]. split; [exact Hlen|reflexivity].
Qed.

Lemma formatPhoneNumber_digits (s : string) :
  formatPhoneNumber (JString s) = classify_digits (digits_of s).
Proof. cbn [formatPhoneNumber]. apply formatPhoneNumber_string_spec. Qed.

(** X1. Whenever [formatPhoneNumber] returns, its argument was a string
    and the result is "250", nine decimal digits and "@c.us": 17
    characters, whatever the input looked like. *)
Theorem formatPhoneNumber_result_shape (v : value) (a : string) :
  formatPhoneNumber v = Return a ->
  (exists s, v = JString s) /\
  (exists r, all_digits r = true /\ String.length r = 9 /\
             a = "250" ++ r ++ "@c.us") /\
  String.length a = 17.
Proof.
  intros Hok.
  destruct v as [| |b|n|s|]; try discriminate Hok.
  rewrite formatPhoneNumber_digits in Hok.
  destruct (classify_digits_shape _ _ (all_digits_digits_of s) Hok)
    as (r & Hr & Hlen & ->).
  split; [exists s; reflexivity|].
  split; [exists r; auto|].
  cbn [append String.length]. rewrite length_app, Hlen. reflexivity.
Qed.

Lemma formatPhoneNumber_result_shape_witness :
  (exists s, JString "+250 788-123-456" = JString s) /\
  (exists r, all_digits r = true /\ String.length r = 9 /\
             "250788123456@c.us" = "250" ++ r ++ "@c.us") /\
  String.length "250788123456@c.us" = 17.
Proof.
  apply (formatPhoneNumber_result_shape (JString "+250 788-123-456")
           "250788123456@c.us").
  reflexivity.
Defined.

Lemma digits_of_drop_nondigit (s t : string) (c : ascii) :
  class_D c = true -> digits_of (s ++ String c t) = digits_of (s ++ t).
Proof.
  intros Hc. rewrite !digits_of_app. f_equal.
  unfold class_D in Hc. rewrite class_d_is_decimal_digit in Hc.
  apply negb_true_iff in Hc.
  unfold digits_of. cbn [list_ascii_of_string filter]. rewrite Hc. reflexivity.
Qed.

(** X2. A character matched by [\D] (a space, a dash, a plus sign, a
    letter) can be inserted anywhere in the input without changing what
    [formatPhoneNumber] returns or throws. *)
Theorem formatPhoneNumber_ignores_separators (s t : string) (c : ascii) :
  class_D c = true ->
  formatPhoneNumber (JString (s ++ String c t)) = formatPhoneNumber (JString (s ++ t)).
Proof.
  intros Hc. rewrite !formatPhoneNumber_digits.
  rewrite (digits_of_drop_nondigit s t c Hc). reflexivity.
Qed.

Lemma formatPhoneNumber_ignores_separators_witness :
  formatPhoneNumber (JString ("0788" ++ String "-" "123456"))
    = formatPhoneNumber (JString ("0788" ++ "123456")).
Proof.
  apply (formatPhoneNumber_ignores_separators "0788" "123456" "-"%char).
  reflexivity.
Defined.

Lemma formatPhoneNumber_local_form (r : string) :
  all_digits r = true -> String.length r = 9 ->
  formatPhoneNumber (JString ("0" ++ r)) = Return ("250" ++ r ++ "@c.us").
Proof.
  intros Hr Hlen. rewrite formatPhoneNumber_digits.
  rewrite digits_of_all_digits by (apply all_digits_app; [reflexivity|exact Hr]).
  cbn [append classify_digits String.length]. rewrite Hlen. reflexivity.
Qed.

Lemma formatPhoneNumber_international_form (r : string) :
  all_digits r = true -> String.length r = 9 ->
  formatPhoneNumber (JString ("250" ++ r)) = Return ("250" ++ r ++ "@c.us").
Proof.
  intros Hr Hlen. rewrite formatPhoneNumber_digits.
  rewrite digits_of_all_digits by (apply all_digits_app; [reflexivity|exact Hr]).
  cbn [append classify_digits String.length]. rewrite Hlen. reflexivity.
Qed.

(** X3. The local and the international spelling of one subscriber number
    give one address: for nine digits [r], "0"+r and "250"+r both
    normalize to "250"+r+"@c.us", and so does the bare [r] when it starts
    with neither "0" nor "250". *)
Theorem formatPhoneNumber_spellings_agree (r : string) :
  all_digits r = true -> String.length r = 9 ->
  formatPhoneNumber (JString ("0" ++ r)) = Return ("250" ++ r ++ "@c.us") /\
  formatPhoneNumber (JString ("250" ++ r)) = formatPhoneNumber (JString ("0" ++ r)) /\
  (String.prefix "0" r = false -> String.prefix "250" r = false ->
   formatPhoneNumber (JString r) = formatPhoneNumber (JString ("0" ++ r))).
Proof.
  intros Hr Hlen.
  rewrite (formatPhoneNumber_local_form r Hr Hlen).
  rewrite (formatPhoneNumber_international_form r Hr Hlen).
  split; [reflexivity|]. split; [reflexivity|].
  intros H0 H250. rewrite formatPhoneNumber_digits.
  rewrite (digits_of_all_digits r Hr).
  rewrite (classify_digits_other r H250 H0).
  rewrite Hlen. reflexivity.
Qed.

Lemma formatPhoneNumber_spellings_agree_witness :
  formatPhoneNumber (JString ("0" ++ "788123456"))
    = Return ("250" ++ "788123456" ++ "@c.us") /\
  formatPhoneNumber (JString ("250" ++ "788123456"))
    = formatPhoneNumber (JString ("0" ++ "788123456")) /\
  (String.prefix "0" "788123456" = false ->
   String.prefix "250" "788123456" = false ->
   formatPhoneNumber (JString "788123456")
     = formatPhoneNumber (JString ("0" ++ "788123456"))).
Proof.
  apply (formatPhoneNumber_spellings_agree "788123456"); reflexivity.
Defined.

(** X4. A bare nine-digit subscriber number is not always accepted: one
    that starts with "0" is taken for a local number that is too short, and
    one that starts with "250" for an international number that is too
    short; both are rejected. *)
Theorem formatPhoneNumber_bare_number_rejected (r : string) :
  all_digits r = true -> String.length r = 9 ->
  String.prefix "0" r = true \/ String.prefix "250" r = true ->
  formatPhoneNumber (JString r)
    = Throw (Error (if String.prefix "250" r then msg_country_code else msg_local)).
Proof.
  intros Hr Hlen Hp. rewrite formatPhoneNumber_digits.
  rewrite (digits_of_all_digits r Hr).
  destruct Hp as [Hp|Hp].
  - destruct (prefix_0_inv r Hp) as [t Ht]. revert Hlen. rewrite Ht.
    cbn [append classify_digits String.length]. intros Hlen.
    injection Hlen as Hlen. rewrite Hlen.
    cbn [String.prefix Ascii.ascii_dec append]. cbn. rewrite ?prefix_empty. reflexivity.
  - destruct (prefix_250_inv r Hp) as [t Ht]. revert Hlen. rewrite Ht.
    cbn [append classify_digits String.length]. intros Hlen.
    injection Hlen as Hlen. rewrite Hlen.
    cbn [String.prefix Ascii.ascii_dec append]. cbn. rewrite ?prefix_empty. reflexivity.
Qed.

Lemma formatPhoneNumber_bare_number_rejected_witness :
  formatPhoneNumber (JString "250123456") = Throw (Error msg_country_code).
Proof.
  apply (formatPhoneNumber_bare_number_rejected "250123456");
    [reflexivity | reflexivity | right; reflexivity].
Defined.

Lemma digits_of_address (r : string) :
  all_digits r = true -> digits_of ("250" ++ r ++ "@c.us") = "250" ++ r.
Proof.
  intros Hr.
  replace ("250" ++ r ++ "@c.us") with (("250" ++ r) ++ "@c.us")
    by (cbn [append]; reflexivity).
  rewrite digits_of_app.
  rewrite digits_of_all_digits by (apply all_digits_app; [reflexivity|exact Hr]).
  change (digits_of "@c.us") with "". apply append_empty_r.
Qed.

(** X5. [formatPhoneNumber] is idempotent: an address it returned is
    accepted as input as it is (the "@c.us" suffix holds no digit) and
    gives the same address back. *)
Theorem formatPhoneNumber_idempotent (v : value) (a : string) :
  formatPhoneNumber v = Return a ->
  formatPhoneNumber (JString a) = Return a.
Proof.
  intros Hok.
  destruct v as [| |b|n|s|]; try discriminate Hok.
  rewrite formatPhoneNumber_digits in Hok.
  destruct (classify_digits_shape _ _ (all_digits_digits_of s) Hok)
    as (r & Hr & Hlen & ->).
  rewrite formatPhoneNumber_digits, (digits_of_address r Hr).
  cbn [append classify_digits String.length]. rewrite Hlen. reflexivity.
Qed.

Lemma formatPhoneNumber_idempotent_witness :
  formatPhoneNumber (JString "250788123456@c.us") = Return "250788123456@c.us".
Proof.
  apply (formatPhoneNumber_idempotent (JString "0788 123 456")).
  reflexivity.
Defined.

(** ** POST /send-message, past the two guards *)

(** The handler, once ready and given two truthy fields, by the outcomes of
    its three calls. *)
Lemma post_send_message_run
    (client : Client) (now : string) (st : State) (req : SendRequest) :
  isReady st = true ->
  truthy (phoneNumber req) = true -> truthy (message req) = true ->
  post_send_message client now st req =
    let failed e :=
      Return (status_json 500
                [("success", JBool false);
                 ("error", JString (err_failed ++ exn_message e))]) in
    match formatPhoneNumber (phoneNumber req) with
    | Throw e => ([CallFormatPhoneNumber (phoneNumber req)], failed e)
    | Return a =>
        match isRegisteredUser client a with
        | Throw e =>
            ([CallFormatPhoneNumber (phoneNumber req); CallIsRegisteredUser a],
             failed e)
        | Return false =>
            ([CallFormatPhoneNumber (phoneNumber req); CallIsRegisteredUser a],
             Return (status_json 400
                       [("success", JBool false);
                        ("error", JString err_not_registered)]))
        | Return true =>
            match sendMessage client a (message req) with
            | Throw e =>
                ([CallFormatPhoneNumber (phoneNumber req); CallIsRegisteredUser a;
                  CallSendMessage a (message req)], failed e)
            | Return id =>
                ([CallFormatPhoneNumber (phoneNumber req); CallIsRegisteredUser a;
                  CallSendMessage a (message req)],
                 Return (json [("success", JBool true);
                               ("messageId", JString id);
                               ("to", phoneNumber req);
                               ("message", message req);
                               ("timestamp", JString now)]))
            end
        end
    end.
Proof.
  intros Hready Hp Hm.
  rewrite (post_send_message_truthy_fields client now st req Hready Hp Hm).
  unfold invoke, bind, try_catch, ret. cbv zeta.
  destruct (formatPhoneNumber (phoneNumber req)) as [a|e]; [|reflexivity].
  destruct (isRegisteredUser client a) as [[|]|e]; cbn [negb]; try reflexivity.
  destruct (sendMessage client a (message req)); reflexivity.
Qed.

(** X7. Success is answered exactly when the message was handed to the
    client and the client returned: the status is 200 if and only if
    [isReady] was true, both fields were truthy, the normalizer returned an
    address, the address was registered and [sendMessage] returned. *)
Theorem post_send_message_200_iff_sent
    (client : Client) (now : string) (st : State) (req : SendRequest) :
  (exists r, snd (post_send_message client now st req) = Return r /\
             status r = 200%Z) <->
  (isReady st = true /\
   truthy (phoneNumber req) = true /\ truthy (message req) = true /\
   exists a id,
     formatPhoneNumber (phoneNumber req) = Return a /\
     isRegisteredUser client a = Return true /\
     sendMessage client a (message req) = Return id).
Proof.
  split.
  - intros (r & Hr & Hstatus).
    destruct (isReady st) eqn:Hready.
    2:{ rewrite (post_send_message_not_ready client now st req Hready) in Hr.
        cbn in Hr. injection Hr as <-. discriminate Hstatus. }
    destruct (truthy (phoneNumber req)) eqn:Hp.
    2:{ rewrite (post_send_message_falsy_field client now st req Hready (or_introl Hp)) in Hr.
        cbn in Hr. injection Hr as <-. discriminate Hstatus. }
    destruct (truthy (message req)) eqn:Hm.
    2:{ rewrite (post_send_message_falsy_field client now st req Hready (or_intror Hm)) in Hr.
        cbn in Hr. injection Hr as <-. discriminate Hstatus. }
    rewrite (post_send_message_run client now st req Hready Hp Hm) in Hr.
    cbv zeta in Hr.
    destruct (formatPhoneNumber (phoneNumber req)) as [a|e].
    2:{ cbn in Hr. injection Hr as <-. discriminate Hstatus. }
    destruct (isRegisteredUser client a) as [[|]|e] eqn:Hregistered.
    2,3:(cbn in Hr; injection Hr as <-; discriminate Hstatus).
    destruct (sendMessage client a (message req)) as [id|e] eqn:Hsent.
    2:{ cbn in Hr. injection Hr as <-. discriminate Hstatus. }
    repeat split. exists a, id. auto.
  - intros (Hready & Hp & Hm & a & id & Hformat & Hregistered & Hsent).
    rewrite (post_send_message_run client now st req Hready Hp Hm). cbv zeta.
    rewrite Hformat, Hregistered, Hsent.
    eexists. split; reflexivity.
Qed.

(** X8. The success response echoes the request: [to] is the
    [phoneNumber] as the caller wrote it (not the normalized address the
    message went to), [message] is the text, [messageId] is what the client
    returned and [timestamp] the time of the answer. *)
Theorem post_send_message_success_echoes_request
    (client : Client) (now : string) (st : State) (req : SendRequest)
    (a id : string) :
  isReady st = true ->
  truthy (phoneNumber req) = true -> truthy (message req) = true ->
  formatPhoneNumber (phoneNumber req) = Return a ->
  isRegisteredUser client a = Return true ->
  sendMessage client a (message req) = Return id ->
  exists r,
    post_send_message client now st req
      = ([CallFormatPhoneNumber (phoneNumber req); CallIsRegisteredUser a;
          CallSendMessage a (message req)], Return r) /\
    status r = 200%Z /\
    field "success" (body r) = JBool true /\
    field "messageId" (body r) = JString id /\
    field "to" (body r) = phoneNumber req /\
    field "message" (body r) = message req /\
    field "timestamp" (body r) = JString now.
Proof.
  intros Hready Hp Hm Hformat Hregistered Hsent.
  rewrite (post_send_message_run client now st req Hready Hp Hm). cbv zeta.
  rewrite Hformat, Hregistered, Hsent.
  eexists. split; [reflexivity|]. repeat split.
Qed.

Lemma post_send_message_success_echoes_request_witness :
  exists r,
    post_send_message client_ok "2024-01-01T00:00:00.000Z" ready_state
      {| phoneNumber := JString "0788 123 456"; message := JString "hello" |}
      = ([CallFormatPhoneNumber (JString "0788 123 456");
          CallIsRegisteredUser "250788123456@c.us";
          CallSendMessage "250788123456@c.us" (JString "hello")], Return r) /\
    status r = 200%Z /\
    field "success" (body r) = JBool true /\
    field "messageId" (body r) = JString "3EB0A1B2C3" /\
    field "to" (body r) = JString "0788 123 456" /\
    field "message" (body r) = JString "hello" /\
    field "timestamp" (body r) = JString "2024-01-01T00:00:00.000Z".
Proof.
  apply (post_send_message_success_echoes_request client_ok
           "2024-01-01T00:00:00.000Z" ready_state
           {| phoneNumber := JString "0788 123 456"; message := JString "hello" |}
           "250788123456@c.us" "3EB0A1B2C3");
    reflexivity.
Defined.

(** X9. A number the client does not know is answered 400 with the
    not-registered error after the lookup, and [sendMessage] is not
    called. *)
Theorem post_send_message_400_when_not_registered
    (client : Client) (now : string) (st : State) (req : SendRequest) (a : string) :
  isReady st = true ->
  truthy (phoneNumber req) = true -> truthy (message req) = true ->
  formatPhoneNumber (phoneNumber req) = Return a ->
  isRegisteredUser client a = Return false ->
  exists r,
    post_send_message client now st req
      = ([CallFormatPhoneNumber (phoneNumber req); CallIsRegisteredUser a],
         Return r) /\
    status r = 400%Z /\
    field "success" (body r) = JBool false /\
    field "error" (body r) = JString err_not_registered /\
    sends (fst (post_send_message client now st req)) = [].
Proof.
  intros Hready Hp Hm Hformat Hregistered.
  rewrite (post_send_message_run client now st req Hready Hp Hm). cbv zeta.
  rewrite Hformat, Hregistered.
  eexists. split; [reflexivity|]. repeat split.
Qed.

Lemma post_send_message_400_when_not_registered_witness :
  exists r,
    post_send_message client_unregistered "2024-01-01T00:00:00.000Z" ready_state
      {| phoneNumber := JString "788123456"; message := JString "hello" |}
      = ([CallFormatPhoneNumber (JString "788123456");
          CallIsRegisteredUser "250788123456@c.us"], Return r) /\
    status r = 400%Z /\
    field "success" (body r) = JBool false /\
    field "error" (body r) = JString err_not_registered /\
    sends (fst (post_send_message client_unregistered "2024-01-01T00:00:00.000Z"
                  ready_state
                  {| phoneNumber := JString "788123456";
                     message := JString "hello" |})) = [].
Proof.
  apply (post_send_message_400_when_not_registered client_unregistered
           "2024-01-01T00:00:00.000Z" ready_state
           {| phoneNumber := JString "788123456"; message := JString "hello" |}
           "250788123456@c.us");
    reflexivity.
Defined.

(** X10. A failure of the client, in the registration lookup or in the
    send, is answered 500 with "Failed to send message: " and the
    client's message; when the lookup fails nothing is sent. *)
Theorem post_send_message_500_when_client_fails
    (client : Client) (now : string) (st : State) (req : SendRequest)
    (a : string) (e : exn) :
  isReady st = true ->
  truthy (phoneNumber req) = true -> truthy (message req) = true ->
  formatPhoneNumber (phoneNumber req) = Return a ->
  isRegisteredUser client a = Throw e \/
  (isRegisteredUser client a = Return true /\
   sendMessage client a (message req) = Throw e) ->
  exists r,
    snd (post_send_message client now st req) = Return r /\
    status r = 500%Z /\
    field "success" (body r) = JBool false /\
    field "error" (body r) = JString ("Failed to send message: " ++ exn_message e) /\
    (isRegisteredUser client a = Throw e ->
     sends (fst (post_send_message client now st req)) = []).
Proof.
  intros Hready Hp Hm Hformat Hfail.
  rewrite (post_send_message_run client now st req Hready Hp Hm). cbv zeta.
  rewrite Hformat.
  destruct Hfail as [Hlookup|[Hregistered Hsend]].
  - rewrite Hlookup. eexists. split; [reflexivity|]. repeat split.
  - rewrite Hregistered, Hsend. eexists. split; [reflexivity|].
    split; [reflexivity|]. split; [reflexivity|]. split; [reflexivity|].
    intros H. discriminate H.
Qed.

Lemma post_send_message_500_when_client_fails_witness :
  exists r,
    snd (post_send_message client_failing "2024-01-01T00:00:00.000Z" ready_state
           {| phoneNumber := JString "0788123456"; message := JString "hello" |})
      = Return r /\
    status r = 500%Z /\
    field "success" (body r) = JBool false /\
    field "error" (body r)
      = JString ("Failed to send message: " ++ exn_message (Error "Evaluation failed")) /\
    (isRegisteredUser client_failing "250788123456@c.us"
       = Throw (Error "Evaluation failed") ->
     sends (fst (post_send_message client_failing "2024-01-01T00:00:00.000Z"
                   ready_state
                   {| phoneNumber := JString "0788123456";
                      message := JString "hello" |})) = []).
Proof.
  apply (post_send_message_500_when_client_fails client_failing
           "2024-01-01T00:00:00.000Z" ready_state
           {| phoneNumber := JString "0788123456"; message := JString "hello" |}
           "250788123456@c.us" (Error "Evaluation failed"));
    try reflexivity.
  right. split; reflexivity.
Defined.

(** X11. A [phoneNumber] that is truthy but not a string (a JSON number,
    [true], an array or an object) makes the normalizer raise a
    [TypeError]; the request is answered 500, and the client is asked
    nothing. *)
Theorem post_send_message_500_when_phone_not_string
    (client : Client) (now : string) (st : State) (req : SendRequest) :
  isReady st = true ->
  truthy (phoneNumber req) = true -> truthy (message req) = true ->
  (forall s, phoneNumber req <> JString s) ->
  exists m r,
    formatPhoneNumber (phoneNumber req) = Throw (TypeError m) /\
    post_send_message client now st req
      = ([CallFormatPhoneNumber (phoneNumber req)], Return r) /\
    status r = 500%Z /\
    field "error" (body r) = JString ("Failed to send message: " ++ m).
Proof.
  intros Hready Hp Hm Hnot.
  rewrite (post_send_message_run client now st req Hready Hp Hm). cbv zeta.
  destruct (phoneNumber req) as [| |b|n|s|]; try discriminate Hp;
    try (eexists; eexists; split; [reflexivity|];
         split; [reflexivity|]; split; reflexivity).
  contradiction (Hnot s). reflexivity.
Qed.

Lemma post_send_message_500_when_phone_not_string_witness :
  exists m r,
    formatPhoneNumber (JNumber 788123456) = Throw (TypeError m) /\
    post_send_message client_ok "2024-01-01T00:00:00.000Z" ready_state
      {| phoneNumber := JNumber 788123456; message := JString "hello" |}
      = ([CallFormatPhoneNumber (JNumber 788123456)], Return r) /\
    status r = 500%Z /\
    field "error" (body r) = JString ("Failed to send message: " ++ m).
Proof.
  apply (post_send_message_500_when_phone_not_string client_ok
           "2024-01-01T00:00:00.000Z" ready_state
           {| phoneNumber := JNumber 788123456; message := JString "hello" |});
    try reflexivity.
  intros s H. discriminate H.
Defined.

(** ** Runs of the event handlers *)

Lemma state_after_app (evs evs' : list event) (st : State) :
  state_after (evs ++ evs')%list st = state_after evs' (state_after evs st).
Proof. unfold state_after. apply fold_left_app. Qed.

Lemma state_after_cons (e : event) (evs : list event) (st : State) :
  state_after (e :: evs) st = state_after evs (fst (on e st)).
Proof. reflexivity. Qed.

Lemma isReady_kept (evs : list event) (st : State) :
  forallb (fun e => negb (is_ready_event e || clears_ready e)) evs = true ->
  isReady (state_after evs st) = isReady st.
Proof.
  revert st. induction evs as [|e evs IH]; intros st H; [reflexivity|].
  cbn [forallb] in H. apply andb_true_iff in H. destruct H as [He Hevs].
  rewrite state_after_cons, (IH _ Hevs).
  destruct e; try discriminate He; reflexivity.
Qed.

Lemma isReady_stays_true (evs : list event) (st : State) :
  forallb (fun e => negb (clears_ready e)) evs = true ->
  isReady st = true -> isReady (state_after evs st) = true.
Proof.
  revert st. induction evs as [|e evs IH]; intros st H Hst; [exact Hst|].
  cbn [forallb] in H. apply andb_true_iff in H. destruct H as [He Hevs].
  rewrite state_after_cons. apply (IH _ Hevs).
  destruct e; try discriminate He; cbn [on fst isReady]; auto.
Qed.

Lemma isReady_stays_false (evs : list event) (st : State) :
  forallb (fun e => negb (is_ready_event e)) evs = true ->
  isReady st = false -> isReady (state_after evs st) = false.
Proof.
  revert st. induction evs as [|e evs IH]; intros st H Hst; [exact Hst|].
  cbn [forallb] in H. apply andb_true_iff in H. destruct H as [He Hevs].
  rewrite state_after_cons. apply (IH _ Hevs).
  destruct e; try discriminate He; cbn [on fst isReady]; auto.
Qed.

(** X12. [isReady] is what the last of the ready, auth-failure and
    disconnected events left: true after a ready event followed by no
    auth-failure or disconnection, false after an auth-failure or a
    disconnection followed by no ready event, whatever came before. *)
Theorem isReady_last_write_wins (pre post : list event) (e : event) (st : State) :
  (is_ready_event e = true ->
   forallb (fun e' => negb (clears_ready e')) post = true ->
   isReady (state_after (pre ++ e :: post)%list st) = true) /\
  (clears_ready e = true ->
   forallb (fun e' => negb (is_ready_event e')) post = true ->
   isReady (state_after (pre ++ e :: post)%list st) = false).
Proof.
  rewrite state_after_app, state_after_cons.
  split; intros He Hpost.
  - apply (isReady_stays_true post _ Hpost).
    destruct e; try discriminate He. reflexivity.
  - apply (isReady_stays_false post _ Hpost).
    destruct e; try discriminate He; reflexivity.
Qed.

Lemma isReady_needs_ready_event_aux (evs : list event) (st : State) :
  isReady st = false ->
  isReady (state_after evs st) = true ->
  In Ready evs.
Proof.
  intros Hst Hafter.
  destruct (forallb (fun e => negb (is_ready_event e)) evs) eqn:Hnone.
  - rewrite (isReady_stays_false evs st Hnone Hst) in Hafter. discriminate Hafter.
  - clear Hst Hafter.
    induction evs as [|e evs IH]; [discriminate Hnone|].
    cbn [forallb] in Hnone. apply andb_false_iff in Hnone.
    destruct Hnone as [He|Hevs].
    + left. destruct e; try discriminate He. reflexivity.
    + right. exact (IH Hevs).
Qed.

(** X13. Only the ready event makes the tracker ready: if [isReady] is
    true after a run that started not ready, the client's ready event was
    among the events delivered, and no authentication failure or
    disconnection was delivered after the last one. *)
Theorem isReady_needs_ready_event (evs : list event) (st : State) :
  isReady st = false ->
  isReady (state_after evs st) = true ->
  exists pre post,
    evs = (pre ++ Ready :: post)%list /\
    forallb (fun e => negb (is_ready_event e || clears_ready e)) post = true.
Proof.
  intros Hst Hafter.
  revert st Hst Hafter.
  induction evs as [|e evs IH] using rev_ind; intros st Hst Hafter.
  - cbn in Hafter. congruence.
  - rewrite state_after_app in Hafter. cbn [state_after fold_left] in Hafter.
    destruct e; cbn [on fst isReady] in Hafter; try discriminate Hafter;
      try (destruct (IH st Hst Hafter) as (pre & post & -> & Hpost);
           eexists pre, (post ++ [_])%list;
           split; [rewrite <- app_assoc; reflexivity|];
           rewrite forallb_app, Hpost; reflexivity).
    exists evs, []. split; reflexivity.
Qed.

Lemma isReady_needs_ready_event_witness :
  exists pre post,
    [Qr "2@token"; Authenticated; Ready; LoadingScreen 100 "WhatsApp"]
      = (pre ++ Ready :: post)%list /\
    forallb (fun e => negb (is_ready_event e || clears_ready e)) post = true.
Proof.
  apply (isReady_needs_ready_event
           [Qr "2@token"; Authenticated; Ready; LoadingScreen 100 "WhatsApp"]
           initial);
    reflexivity.
Defined.

Lemma qrCodeData_kept (evs : list event) (st : State) :
  forallb (fun e => negb (is_qr_event e || is_ready_event e)) evs = true ->
  qrCodeData (state_after evs st) = qrCodeData st.
Proof.
  revert st. induction evs as [|e evs IH]; intros st H; [reflexivity|].
  cbn [forallb] in H. apply andb_true_iff in H. destruct H as [He Hevs].
  rewrite state_after_cons, (IH _ Hevs).
  destruct e; try discriminate He; reflexivity.
Qed.

Lemma qrCodeData_stays_none (evs : list event) (st : State) :
  forallb (fun e => negb (is_qr_event e)) evs = true ->
  qrCodeData st = None -> qrCodeData (state_after evs st) = None.
Proof.
  revert st. induction evs as [|e evs IH]; intros st H Hst; [exact Hst|].
  cbn [forallb] in H. apply andb_true_iff in H. destruct H as [He Hevs].
  rewrite state_after_cons. apply (IH _ Hevs).
  destruct e; try discriminate He; cbn [on fst qrCodeData]; auto.
Qed.

(** X14. The stored QR payload is the last one issued since the last
    ready event: after a QR event with payload [p] followed by no QR and no
    ready event the payload is [p], and after a ready event followed by no
    QR event there is none, whatever came before. *)
Theorem qrCodeData_last_write_wins (pre post : list event) (st : State) :
  (forall p,
     forallb (fun e => negb (is_qr_event e || is_ready_event e)) post = true ->
     qrCodeData (state_after (pre ++ Qr p :: post)%list st) = Some p) /\
  (forallb (fun e => negb (is_qr_event e)) post = true ->
   qrCodeData (state_after (pre ++ Ready :: post)%list st) = None).
Proof.
  split.
  - intros p Hpost.
    rewrite state_after_app, state_after_cons, (qrCodeData_kept post _ Hpost).
    reflexivity.
  - intros Hpost. rewrite state_after_app, state_after_cons.
    apply (qrCodeData_stays_none post _ Hpost). reflexivity.
Qed.

(** X15. A stored QR payload is one the client issued: if after a run
    from the initial state [qrCodeData] holds [p], a QR event with payload
    [p] was among the events delivered. *)
Theorem qrCodeData_was_issued (evs : list event) (p : string) :
  qrCodeData (state_after evs initial) = Some p -> In (Qr p) evs.
Proof.
  assert (Hgen : forall st,
             qrCodeData (state_after evs st) = Some p ->
             qrCodeData st = Some p \/ In (Qr p) evs).
  { induction evs as [|e evs IH]; intros st H; [left; exact H|].
    rewrite state_after_cons in H.
    destruct (IH _ H) as [Hst|Hin]; [|right; right; exact Hin].
    destruct e; cbn [on fst qrCodeData] in Hst; auto; try discriminate Hst.
    injection Hst as ->. right; left. reflexivity. }
  intros H. destruct (Hgen initial H) as [Hinit|Hin]; [discriminate Hinit|exact Hin].
Qed.

Lemma qrCodeData_was_issued_witness :
  In (Qr "2@second") [Qr "2@first"; LoadingScreen 10 "WhatsApp"; Qr "2@second"].
Proof.
  apply (qrCodeData_was_issued
           [Qr "2@first"; LoadingScreen 10 "WhatsApp"; Qr "2@second"] "2@second").
  reflexivity.
Defined.

Lemma timers_app (effs effs' : list effect) :
  timers (effs ++ effs')%list = (timers effs ++ timers effs')%list.
Proof. unfold timers. apply flat_map_app. Qed.

(** X16. Reconnection is not debounced: a run of events schedules exactly
    one [client.initialize] timer of 5000 ms for each disconnected event in
    it, and nothing else schedules a timer. *)
Theorem one_timer_per_disconnect (evs : list event) (st : State) :
  timers (effects_after evs st)
    = repeat (ClientInitialize, 5000%Z) (List.length (filter is_disconnected evs)).
Proof.
  revert st. induction evs as [|e evs IH]; intros st; [reflexivity|].
  cbn [effects_after filter]. rewrite timers_app, IH.
  destruct e; reflexivity.
Qed.

(** X17. The loading-screen, authenticated and change-state events only
    write to the log: leaving them out of a run changes neither the final
    state nor the timers scheduled. *)
Theorem log_only_events_ignored (evs : list event) (st : State) :
  state_after (filter (fun e => negb (log_only e)) evs) st = state_after evs st /\
  timers (effects_after (filter (fun e => negb (log_only e)) evs) st)
    = timers (effects_after evs st).
Proof.
  revert st. induction evs as [|e evs IH]; intros st; [split; reflexivity|].
  destruct e; cbn [filter log_only negb effects_after];
    rewrite ?state_after_cons, ?timers_app; cbn [on fst snd];
    match goal with
    | |- context [state_after evs ?s] => destruct (IH s) as [Hstate Htimers]
    end;
    rewrite Hstate, Htimers; split; reflexivity.
Qed.

(** ** The endpoints over the tracker *)

(** X18. While a non-empty QR payload is pending, [GET /qr] keeps serving
    it across every event other than a new QR payload and ready: an
    authentication failure or a disconnection does not withdraw it. *)
Theorem get_qr_serves_pending_payload (evs : list event) (st : State) (p : string) :
  qrCodeData st = Some p -> p <> "" ->
  forallb (fun e => negb (is_qr_event e || is_ready_event e)) evs = true ->
  get_qr (state_after evs st)
    = json [("qrCode", JString p);
            ("message", JString "Please scan this QR code with your WhatsApp mobile app")].
Proof.
  intros Hp Hne Hevs. unfold get_qr.
  rewrite (qrCodeData_kept evs st Hevs), Hp. cbn [qr_value truthy].
  apply String.eqb_neq in Hne. rewrite Hne. reflexivity.
Qed.

Lemma get_qr_serves_pending_payload_witness :
  get_qr (state_after [AuthFailure "timeout"; Disconnected "LOGOUT"]
            {| isReady := false; qrCodeData := Some "2@token" |})
    = json [("qrCode", JString "2@token");
            ("message", JString "Please scan this QR code with your WhatsApp mobile app")].
Proof.
  apply (get_qr_serves_pending_payload
           [AuthFailure "timeout"; Disconnected "LOGOUT"]
           {| isReady := false; qrCodeData := Some "2@token" |} "2@token").
  - reflexivity.
  - intros H. discriminate H.
  - reflexivity.
Defined.

(** X20. [GET /status] and [GET /qr] never disagree on the payload: when
    [GET /qr] serves a QR code, [GET /status] carries the same one; and
    [GET /status] carries [null] exactly when no payload is stored. *)
Theorem status_carries_the_served_qr (st : State) :
  status (get_status st) = 200%Z /\
  (forall p, field "qrCode" (body (get_qr st)) = JString p ->
             field "qrCode" (body (get_status st)) = JString p) /\
  (field "qrCode" (body (get_status st)) = JNull <-> qrCodeData st = None).
Proof.
  split; [reflexivity|]. split.
  - intros p. unfold get_qr, get_status.
    destruct (qrCodeData st) as [q|]; cbn [qr_value truthy].
    + destruct (q =? "") eqn:Hq; cbn [negb].
      * destruct (isReady st); cbn; intros H; discriminate H.
      * cbn. auto.
    + destruct (isReady st); cbn; intros H; discriminate H.
  - unfold get_status. cbn. destruct (qrCodeData st); cbn.
    + split; intros H; discriminate H.
    + split; reflexivity.
Qed.

(** X21. Once the ready event has been delivered and neither a QR
    payload, an authentication failure nor a disconnection has followed,
    every endpoint reports a ready bot: [GET /qr] says it is already
    authenticated, and [GET /status] says "ready" with a [null] QR code. *)
Theorem endpoints_after_ready (pre post : list event) (st : State) :
  forallb (fun e => negb (is_qr_event e)) post = true ->
  forallb (fun e => negb (clears_ready e)) post = true ->
  get_qr (state_after (pre ++ Ready :: post)%list st)
    = json [("message", JString "Bot is already authenticated and ready")] /\
  get_status (state_after (pre ++ Ready :: post)%list st)
    = json [("status", JString "ready");
            ("qrCode", JNull);
            ("message", JString "Bot is ready to send messages")].
Proof.
  intros Hqr Hready.
  rewrite state_after_app, state_after_cons.
  unfold get_qr, get_status.
  rewrite (qrCodeData_stays_none post _ Hqr) by reflexivity.
  rewrite (isReady_stays_true post _ Hready) by reflexivity.
  split; reflexivity.
Qed.

Lemma endpoints_after_ready_witness :
  get_qr (state_after ([Qr "2@token"; Authenticated] ++ Ready :: [ChangeState "CONNECTED"])%list
            initial)
    = json [("message", JString "Bot is already authenticated and ready")] /\
  get_status (state_after ([Qr "2@token"; Authenticated] ++ Ready :: [ChangeState "CONNECTED"])%list
                initial)
    = json [("status", JString "ready");
            ("qrCode", JNull);
            ("message", JString "Bot is ready to send messages")].
Proof.
  apply (endpoints_after_ready [Qr "2@token"; Authenticated]
           [ChangeState "CONNECTED"] initial);
    reflexivity.
Defined.

(** X22. Nothing is sent before the client is ready: if the handling of a
    request calls [client.sendMessage] in the state a run of events left
    from the initial state, the ready event was delivered in that run, and
    no authentication failure or disconnection came after the last one. *)
Theorem send_requires_ready_event
    (client : Client) (now : string) (evs : list event) (req : SendRequest)
    (address : string) (text : value) :
  In (CallSendMessage address text)
     (fst (post_send_message client now (state_after evs initial) req)) ->
  In Ready evs /\
  forall pre e post,
    evs = (pre ++ e :: post)%list -> clears_ready e = true ->
    In Ready post.
Proof.
  intros Hsent.
  assert (Hready : isReady (state_after evs initial) = true).
  { destruct (isReady (state_after evs initial)) eqn:H; [reflexivity|].
    rewrite (post_send_message_not_ready client now _ req H) in Hsent.
    destruct Hsent. }
  split.
  - apply (isReady_needs_ready_event_aux evs initial); [reflexivity|exact Hready].
  - intros pre e post -> He.
    rewrite state_after_app, state_after_cons in Hready.
    apply (isReady_needs_ready_event_aux post (fst (on e (state_after pre initial))));
      [|exact Hready].
    destruct e; try discriminate He; reflexivity.
Qed.

Lemma send_requires_ready_event_witness :
  In Ready [Disconnected "NAVIGATION"; Ready] /\
  forall pre e post,
    [Disconnected "NAVIGATION"; Ready] = (pre ++ e :: post)%list ->
    clears_ready e = true -> In Ready post.
Proof.
  apply (send_requires_ready_event client_ok "2024-01-01T00:00:00.000Z"
           [Disconnected "NAVIGATION"; Ready]
           {| phoneNumber := JString "0788123456"; message := JString "hello" |}
           "250788123456@c.us" (JString "hello")).
  cbn. right; right; left. reflexivity.
Defined.

(** ** The whole path of a POST /send-message request *)

(** On a parsed body and a client whose calls settle, the two models of the
    handler agree. *)
Lemma handle_send_message_settled
    (client : Client) (now : string) (st : State) (req : SendRequest) :
  handle_send_message (settled client) now st (Some req)
    = settled_step (post_send_message client now st req).
Proof.
  unfold handle_send_message, post_send_message.
  destruct (isReady st); cbn [negb]; [|reflexivity].
  cbn [destructure unit_P bind_P app].
  destruct (negb (truthy (phoneNumber req)) || negb (truthy (message req)));
    [reflexivity|].
  unfold invoke_P, await_P, invoke, bind_P, bind, try_catch_P, try_catch,
    unit_P, ret, settled_step, failed_with.
  cbn [awaitIsRegisteredUser awaitSendMessage settled].
  destruct (formatPhoneNumber (phoneNumber req)) as [a|e]; [|reflexivity].
  destruct (isRegisteredUser client a) as [[|]|e]; cbn [negb]; try reflexivity.
  destruct (sendMessage client a (message req)); reflexivity.
Qed.

(** Not ready: the first test of the handler answers, before [req.body]
    is read and before the client is asked anything. *)
Lemma handle_send_message_not_ready
    (client : AsyncClient) (now : string) (st : State) (body : option SendRequest) :
  isReady st = false ->
  handle_send_message client now st body
    = ([], Done (status_json 503 [("success", JBool false);
                                  ("error", JString err_not_ready)])).
Proof.
  intros Hready. unfold handle_send_message. rewrite Hready. reflexivity.
Qed.

(** Ready, and [req.body] is [undefined]: the destructuring throws, and
    the catch block answers. *)
Lemma handle_send_message_no_body (client : AsyncClient) (now : string) (st : State) :
  isReady st = true ->
  handle_send_message client now st None
    = ([], Done (status_json 500
                   [("success", JBool false);
                    ("error", JString
                       "Failed to send message: Cannot destructure property 'phoneNumber' of 'req.body' as it is undefined.")])).
Proof.
  intros Hready. unfold handle_send_message. rewrite Hready. reflexivity.
Qed.

(** Ready, a parsed body, and one of the two fields falsy. *)
Lemma handle_send_message_falsy_field
    (client : AsyncClient) (now : string) (st : State) (req : SendRequest) :
  isReady st = true ->
  truthy (phoneNumber req) = false \/ truthy (message req) = false ->
  handle_send_message client now st (Some req)
    = ([], Done (status_json 400 [("success", JBool false);
                                  ("error", JString err_required)])).
Proof.
  intros Hready Hfalsy. unfold handle_send_message. rewrite Hready.
  cbn [negb destructure unit_P bind_P app].
  assert (Htest : negb (truthy (phoneNumber req)) || negb (truthy (message req)) = true).
  { destruct Hfalsy as [H|H]; rewrite H; cbn [negb orb]; [reflexivity|].
    apply orb_true_r. }
  rewrite Htest. reflexivity.
Qed.

(** Ready, a parsed body and two truthy fields: the handler by the
    outcomes of its three calls. *)
Lemma handle_send_message_run
    (client : AsyncClient) (now : string) (st : State) (req : SendRequest) :
  isReady st = true ->
  truthy (phoneNumber req) = true -> truthy (message req) = true ->
  handle_send_message client now st (Some req) =
    match formatPhoneNumber (phoneNumber req) with
    | Throw e =>
        ([CallFormatPhoneNumber (phoneNumber req)], caught (ThrownError e))
    | Return a =>
        match awaitIsRegisteredUser client a with
        | Pending =>
            ([CallFormatPhoneNumber (phoneNumber req); CallIsRegisteredUser a], Stuck)
        | Rejected t =>
            ([CallFormatPhoneNumber (phoneNumber req); CallIsRegisteredUser a],
             caught t)
        | Fulfilled false =>
            ([CallFormatPhoneNumber (phoneNumber req); CallIsRegisteredUser a],
             Done (status_json 400
                     [("success", JBool false);
                      ("error", JString err_not_registered)]))
        | Fulfilled true =>
            match awaitSendMessage client a (message req) with
            | Pending =>
                ([CallFormatPhoneNumber (phoneNumber req); CallIsRegisteredUser a;
                  CallSendMessage a (message req)], Stuck)
            | Rejected t =>
                ([CallFormatPhoneNumber (phoneNumber req); CallIsRegisteredUser a;
                  CallSendMessage a (message req)], caught t)
            | Fulfilled id =>
                ([CallFormatPhoneNumber (phoneNumber req); CallIsRegisteredUser a;
                  CallSendMessage a (message req)],
                 Done (json [("success", JBool true);
                             ("messageId", JString id);
                             ("to", phoneNumber req);
                             ("message", message req);
                             ("timestamp", JString now)]))
            end
        end
    end.
Proof.
  intros Hready Hp Hm. unfold handle_send_message.
  rewrite Hready. cbn [negb destructure unit_P bind_P app].
  rewrite Hp, Hm. cbn [negb orb].
  unfold invoke_P, await_P, bind_P, try_catch_P, unit_P, failed_with, raise_P, caught.
  destruct (formatPhoneNumber (phoneNumber req)) as [a|e]; [|reflexivity].
  destruct (awaitIsRegisteredUser client a) as [[|]|[e| | |]|]; cbn [negb];
    try reflexivity.
  destruct (awaitSendMessage client a (message req)) as [id|[e| | |]|];
    reflexivity.
Qed.

(** C5, as stated, fails: a body the parsers refuse (malformed JSON, say)
    never reaches the handler; the error middleware answers it 500, ready or
    not. *)
Lemma serve_send_message_refused_body_counterexample :
  isReady initial = false /\
  serve_send_message client_hanging "2024-01-01T00:00:00.000Z" initial BodyRefused
    = ([], Done (status_json 500 [("success", JBool false);
                                  ("error", JString "Internal server error")])) /\
  ~ (forall client now st request,
       isReady st = false ->
       exists r, snd (serve_send_message client now st request) = Done r /\
                 status r = 503%Z).
Proof.
  split; [reflexivity|]. split; [reflexivity|].
  intros H.
  destruct (H client_hanging "2024-01-01T00:00:00.000Z" initial BodyRefused eq_refl)
    as (r & Hr & Hstatus).
  cbn in Hr. injection Hr as <-. discriminate Hstatus.
Qed.

(** C5, amended.  While [isReady] is false, every [POST /send-message]
    request whose body the parsers passed on is answered 503 with an
    explanatory error, whatever the body holds (no [req.body] at all, missing
    fields, a malformed phone number) and whatever the client would do;
    nothing is called. *)
Theorem serve_send_message_503_when_not_ready
    (client : AsyncClient) (now : string) (st : State) (req_body : option SendRequest) :
  isReady st = false ->
  exists r,
    serve_send_message client now st (BodyPassed req_body) = ([], Done r) /\
    status r = 503%Z /\
    field "success" (body r) = JBool false /\
    field "error" (body r) = JString err_not_ready.
Proof.
  intros Hready. cbn [serve_send_message].
  rewrite (handle_send_message_not_ready client now st req_body Hready).
  eexists. split; [reflexivity|]. repeat split.
Qed.

Lemma serve_send_message_503_when_not_ready_witness :
  exists r,
    serve_send_message client_hanging "2024-01-01T00:00:00.000Z" initial
      (BodyPassed (Some {| phoneNumber := JNumber 12; message := JUndefined |}))
      = ([], Done r) /\
    status r = 503%Z /\
    field "success" (body r) = JBool false /\
    field "error" (body r) = JString err_not_ready.
Proof.
  apply (serve_send_message_503_when_not_ready client_hanging
           "2024-01-01T00:00:00.000Z" initial
           (Some {| phoneNumber := JNumber 12; message := JUndefined |})).
  reflexivity.
Defined.




(** The status of an answer of the handler, by readiness. *)
Lemma handle_send_message_done_status
    (client : AsyncClient) (now : string) (st : State) (body : option SendRequest)
    (r : Response) :
  snd (handle_send_message client now st body) = Done r ->
  (isReady st = false /\ status r = 503%Z) \/
  (isReady st = true /\ (status r = 200 \/ status r = 400 \/ status r = 500)%Z).
Proof.
  intros Hr.
  destruct (isReady st) eqn:Hready.
  2:{ rewrite (handle_send_message_not_ready client now st body Hready) in Hr.
      cbn in Hr. injection Hr as <-. left. split; reflexivity. }
  right. split; [reflexivity|].
  destruct body as [req|].
  2:{ rewrite (handle_send_message_no_body client now st Hready) in Hr.
      cbn in Hr. injection Hr as <-. cbn. auto. }
  destruct (truthy (phoneNumber req)) eqn:Hp.
  2:{ rewrite (handle_send_message_falsy_field client now st req Hready (or_introl Hp)) in Hr.
      cbn in Hr. injection Hr as <-. cbn. auto. }
  destruct (truthy (message req)) eqn:Hm.
  2:{ rewrite (handle_send_message_falsy_field client now st req Hready (or_intror Hm)) in Hr.
      cbn in Hr. injection Hr as <-. cbn. auto. }
  rewrite (handle_send_message_run client now st req Hready Hp Hm) in Hr.
  destruct (formatPhoneNumber (phoneNumber req)) as [a|e].
  2:{ cbn in Hr. injection Hr as <-. cbn. auto. }
  destruct (awaitIsRegisteredUser client a) as [[|]|[e| | |]|];
    try (cbn in Hr; first [discriminate Hr | injection Hr as <-; cbn; auto]).
  destruct (awaitSendMessage client a (message req)) as [id|[e| | |]|];
    cbn in Hr; first [discriminate Hr | injection Hr as <-; cbn; auto].
Qed.

Ltac reached_otherwise Hformat :=
  let H := fresh "H" in
  let Hreach := fresh "Hreach" in
  let Hc := fresh "Hc" in
  let Hb := fresh "Hb" in
  let Hf := fresh "Hf" in
  intros H;
  repeat match type of H with
         | ex _ => let x := fresh "x" in destruct H as [x H]
         end;
  destruct H as [Hreach Hc];
  unfold reaches_client in Hreach;
  destruct Hreach as (Hb & _ & _ & _ & Hf);
  injection Hb as Hb; subst;
  rewrite Hformat in Hf;
  first [ discriminate Hf
        | injection Hf as Hf; subst;
          repeat match goal with
                 | Hd : _ \/ _ |- _ => destruct Hd
                 | Hd : _ /\ _ |- _ => destruct Hd
                 end;
          first [ congruence
                | match goal with
                  | Hn : nullish ?t = true |- _ =>
                      destruct t; try discriminate Hn; congruence
                  end ] ].

(** X6. The handler answers, with status 200, 400, 500 or 503, unless a
    call of the client it awaits stalls it: it never finishes exactly when
    the lookup or the send it awaits never settles, and an exception escapes
    it exactly when one of them is rejected with [null] or [undefined]
    (whose [message] the catch block cannot read).  Every other exception,
    of the normalizer, of the destructuring or of the client, is answered. *)
Theorem handle_send_message_answers_unless_client_stalls
    (client : AsyncClient) (now : string) (st : State)
    (req_body : option SendRequest) :
  let out := snd (handle_send_message client now st req_body) in
  (forall r, out = Done r ->
     (status r = 200 \/ status r = 400 \/ status r = 500 \/ status r = 503)%Z) /\
  (out = Stuck <->
   exists req a,
     reaches_client st req_body req a /\
     (awaitIsRegisteredUser client a = Pending \/
      (awaitIsRegisteredUser client a = Fulfilled true /\
       awaitSendMessage client a (message req) = Pending))) /\
  ((exists t, out = Raised t) <->
   exists req a t,
     reaches_client st req_body req a /\ nullish t = true /\
     (awaitIsRegisteredUser client a = Rejected t \/
      (awaitIsRegisteredUser client a = Fulfilled true /\
       awaitSendMessage client a (message req) = Rejected t))).
Proof.
  intros out. subst out.
  split.
  { intros r Hr.
    destruct (handle_send_message_done_status client now st req_body r Hr)
      as [[_ H]|[_ H]]; tauto. }
  destruct (isReady st) eqn:Hready.
  2:{ rewrite (handle_send_message_not_ready client now st req_body Hready).
      cbn [snd]. split; (split; [intros H; first [discriminate H | destruct H as [? H]; discriminate H]|]).
      - intros (req & a & Hreach & _). unfold reaches_client in Hreach.
        decompose record Hreach. congruence.
      - intros (req & a & t & Hreach & _). unfold reaches_client in Hreach.
        decompose record Hreach. congruence. }
  destruct req_body as [req|].
  2:{ rewrite (handle_send_message_no_body client now st Hready).
      cbn [snd]. split; (split; [intros H; first [discriminate H | destruct H as [? H]; discriminate H]|]).
      - intros (req & a & Hreach & _). unfold reaches_client in Hreach.
        decompose record Hreach. congruence.
      - intros (req & a & t & Hreach & _). unfold reaches_client in Hreach.
        decompose record Hreach. congruence. }
  destruct (truthy (phoneNumber req)) eqn:Hp.
  2:{ rewrite (handle_send_message_falsy_field client now st req Hready (or_introl Hp)).
      cbn [snd]. split; (split; [intros H; first [discriminate H | destruct H as [? H]; discriminate H]|]).
      - intros (req' & a & Hreach & _). unfold reaches_client in Hreach.
        decompose record Hreach. congruence.
      - intros (req' & a & t & Hreach & _). unfold reaches_client in Hreach.
        decompose record Hreach. congruence. }
  destruct (truthy (message req)) eqn:Hm.
  2:{ rewrite (handle_send_message_falsy_field client now st req Hready (or_intror Hm)).
      cbn [snd]. split; (split; [intros H; first [discriminate H | destruct H as [? H]; discriminate H]|]).
      - intros (req' & a & Hreach & _). unfold reaches_client in Hreach.
        decompose record Hreach. congruence.
      - intros (req' & a & t & Hreach & _). unfold reaches_client in Hreach.
        decompose record Hreach. congruence. }
  rewrite (handle_send_message_run client now st req Hready Hp Hm).
  assert (Hreach : forall a, formatPhoneNumber (phoneNumber req) = Return a ->
                             reaches_client st (Some req) req a).
  { intros a Hf. unfold reaches_client. auto. }
  destruct (formatPhoneNumber (phoneNumber req)) as [a|e] eqn:Hformat.
  2:{ cbn [snd caught].
      split; (split; [intros H; first [discriminate H | destruct H as [? H]; discriminate H]|]);
        reached_otherwise Hformat. }
  specialize (Hreach a eq_refl).
  destruct (awaitIsRegisteredUser client a) as [[|]|[e| | |]|] eqn:Hregistered;
    cbn [snd caught].
  - destruct (awaitSendMessage client a (message req)) as [id|[e| | |]|] eqn:Hsent;
      cbn [snd caught].
    + split; (split; [intros H; first [discriminate H | destruct H as [? H]; discriminate H]|]);
        reached_otherwise Hformat.
    + split; (split; [intros H; first [discriminate H | destruct H as [? H]; discriminate H]|]);
        reached_otherwise Hformat.
    + split; (split; [intros H; first [discriminate H | destruct H as [? H]; discriminate H]|]);
        reached_otherwise Hformat.
    + split; [split; [intros H; discriminate|reached_otherwise Hformat]|].
      split; [intros _|intros _; eexists; reflexivity].
      exists req, a, ThrownNull. split; [exact Hreach|]. split; [reflexivity|].
      right. split; assumption.
    + split; [split; [intros H; discriminate|reached_otherwise Hformat]|].
      split; [intros _|intros _; eexists; reflexivity].
      exists req, a, ThrownUndefined. split; [exact Hreach|]. split; [reflexivity|].
      right. split; assumption.
    + split; [|split; [intros [t H]; discriminate|reached_otherwise Hformat]].
      split; [intros _|reflexivity].
      exists req, a. split; [exact Hreach|]. right. split; assumption.
  - split; (split; [intros H; first [discriminate H | destruct H as [? H]; discriminate H]|]);
      reached_otherwise Hformat.
  - split; (split; [intros H; first [discriminate H | destruct H as [? H]; discriminate H]|]);
      reached_otherwise Hformat.
  - split; (split; [intros H; first [discriminate H | destruct H as [? H]; discriminate H]|]);
      reached_otherwise Hformat.
  - split; [split; [intros H; discriminate|reached_otherwise Hformat]|].
    split; [intros _|intros _; eexists; reflexivity].
    exists req, a, ThrownNull. split; [exact Hreach|]. split; [reflexivity|].
    left. assumption.
  - split; [split; [intros H; discriminate|reached_otherwise Hformat]|].
    split; [intros _|intros _; eexists; reflexivity].
    exists req, a, ThrownUndefined. split; [exact Hreach|]. split; [reflexivity|].
    left. assumption.
  - split; [|split; [intros [t H]; discriminate|reached_otherwise Hformat]].
    split; [intros _|reflexivity].
    exists req, a. split; [exact Hreach|]. left. assumption.
Qed.

(** X19. The three readings of readiness agree: [GET /status] says
    "ready" exactly when [GET /health] reports [whatsappReady: true], and
    exactly when a [POST /send-message] request whose body the parsers
    passed on is not answered 503 (it is answered with another status or,
    when the client stalls, not at all). *)
Theorem readiness_reported_consistently
    (client : AsyncClient) (now : string) (st : State)
    (req_body : option SendRequest) :
  (field "status" (body (get_status st)) = JString "ready" <->
   field "whatsappReady" (body (get_health now st)) = JBool true) /\
  (field "status" (body (get_status st)) = JString "ready" <->
   ~ exists r,
       snd (serve_send_message client now st (BodyPassed req_body)) = Done r /\
       status r = 503%Z).
Proof.
  cbn [serve_send_message].
  destruct (isReady st) eqn:Hready.
  - unfold get_status, get_health. rewrite Hready. cbn.
    split; [split; reflexivity|].
    split; [intros _|reflexivity].
    intros (r & Hr & Hstatus).
    destruct (handle_send_message_done_status client now st req_body r Hr)
      as [[Hnot _]|[_ Hcodes]]; [congruence|].
    rewrite Hstatus in Hcodes. destruct Hcodes as [H|[H|H]]; discriminate H.
  - unfold get_status, get_health. rewrite Hready. cbn.
    split; [split; intros H; discriminate H|].
    split; [intros H; discriminate H|].
    intros Hnone. exfalso. apply Hnone.
    rewrite (handle_send_message_not_ready client now st req_body Hready).
    eexists. split; reflexivity.
Qed.

Example handle_send_message_hangs :
  handle_send_message client_hanging "2024-01-01T00:00:00.000Z" ready_state
    (Some {| phoneNumber := JString "0788123456"; message := JString "hello" |})
  = ([CallFormatPhoneNumber (JString "0788123456");
      CallIsRegisteredUser "250788123456@c.us"], Stuck).
Proof. reflexivity. Qed.
